(** * BaseFrame.js: frames of the OpenMDAO GUI

    A shallow embedding of [openmdao/BaseFrame.js]: the global frame
    registry and its [update] broadcast, and the [BaseFrame] prototype
    ([init], [popup], [setTitle], [close], [update]).

    The JavaScript works on three kinds of shared mutable state, which the
    embedding threads explicitly:
    - the [openmdao] namespace object ([uniqueID], [frames]);
    - frame objects, which are referred to by reference (the registry and
      the closures installed by [popup] alias [this]);
    - the page: DOM elements wrapped in jQuery objects, the window and the
      timer queue.

    JavaScript's numbers are doubles.  A number that carries pixels is
    represented by the rational it denotes; sums, differences and
    comparisons of pixel counts are taken exactly, and the product by [0.8]
    is rounded to the nearest double, as JavaScript rounds it.  The
    identifier counter is a natural number: it is exact as long as it stays
    below 2^53, which it does on a page that starts without a counter.

    Identifiers are strings.  What is proved about [init] with an id is
    proved for plain ids ([plain_id]), for which [jQuery("#" + id)] is
    [document.getElementById]; other strings are selectors and markup for
    jQuery and the browser to parse, which is not represented.  The dialog
    toolkit, jQuery UI, is not among the sources either: it is represented
    by what its documentation says of the calls the frame makes. *)

From Stdlib Require Import QArith Qabs Qpower Lqa DecimalString DecimalN NArith.
From Stdlib Require Import SpecFloat.
From stdpp Require Import gmap strings list fin_maps.

(** ** JavaScript values *)

(** A property that holds a string, or [null]/[undefined]. *)
Definition truthy (s : option string) : bool :=
  match s with
  | Some s => negb (String.eqb s "")
  | None => false
  end.

(** [openmdao.uniqueID]: absent or a number; [0] is falsy. *)
Definition truthy_num (n : option N) : bool :=
  match n with
  | Some n => negb (N.eqb n 0)
  | None => false
  end.

(** Number to string conversion of a non-negative integer. *)
Definition decimal (n : N) : string :=
  NilEmpty.string_of_uint (N.to_uint n).

(** [null] and an absent measurement count as [0] in arithmetic. *)
Definition num (q : option Q) : Q := default 0%Q q.

Definition Qltb (x y : Q) : bool := negb (Qle_bool y x).

(** *** Doubles

    JavaScript's numbers are binary64 floating-point numbers.  A double is
    represented by the rational it denotes.  Every operation on doubles
    gives the double nearest to the exact result, ties going to the even
    significand; [to_double] is that rounding, for results in the normal
    range (neither overflow nor the subnormal numbers near zero come up with
    pixel counts). *)

(** The integer nearest to [n / d], for [d > 0]; a tie goes to the even
    one. *)
Definition round_half_even (n d : Z) : Z :=
  let f := (n / d)%Z in
  match (2 * (n mod d) ?= d)%Z with
  | Lt => f
  | Gt => (f + 1)%Z
  | Eq => if Z.even f then f else (f + 1)%Z
  end.

(** Numerator and denominator of [(n / d) / 2 ^ e]. *)
Definition scaled (n d e : Z) : Z * Z :=
  if (0 <=? e)%Z then (n, (d * 2 ^ e)%Z) else ((n * 2 ^ (- e))%Z, d).

(** The weight of the last of the 53 bits of the significand of [n / d],
    for [n, d > 0]: the [e] with [2 ^ 52 <= (n / d) / 2 ^ e < 2 ^ 53]. *)
Definition ulp_exponent (n d : Z) : Z :=
  let e := (Z.log2 n - Z.log2 d - 52)%Z in
  let '(n', d') := scaled n d e in
  if (n' <? d' * 2 ^ 52)%Z then (e - 1)%Z else e.

(** The double nearest to [n / d], for [n, d > 0]: a significand of 53
    bits times a power of two. *)
Definition nearest (n d : Z) : Q :=
  let e := ulp_exponent n d in
  let '(n', d') := scaled n d e in
  (inject_Z (round_half_even n' d') * Qpower 2 e)%Q.

Definition to_double (q : Q) : Q :=
  match Qnum q with
  | Z0 => 0%Q
  | Zpos n => nearest (Zpos n) (Zpos (Qden q))
  | Zneg n => (- nearest (Zpos n) (Zpos (Qden q)))%Q
  end.

(** [x * y] *)
Definition times (x y : Q) : Q := to_double (x * y).
Arguments times : simpl never.

(** The literal [0.8]: the double nearest to eight tenths,
    0.8000000000000000444 (hexadecimal 0.ccccccccccccd). *)
Definition lit_0_8 : Q := Eval vm_compute in Qred (to_double 0.8).

(** The rational that a floating-point number of the Standard Library's
    specification of IEEE 754 denotes, to compare [times] with the
    multiplication specified there. *)
Definition Q_of_float (x : spec_float) : Q :=
  match x with
  | S754_finite s m e =>
      ((if s then -1 else 1) * inject_Z (Zpos m) * Qpower 2 e)%Q
  | _ => 0%Q
  end.

(** The literal [0.8] and the product of binary64 numbers, as specified
    there: 53 bits of precision, exponents up to 1024. *)
Definition float_0_8 : spec_float := S754_finite false 7205759403792794 (-53).
Definition float_mul : spec_float -> spec_float -> spec_float := SFmul 53 1024.

Inductive Exn :=
  | TypeError          (* a property of null or undefined was read *)
  | UserError (n : nat). (* thrown by an overridden method *)

(** ** The page *)

Abbreviation node := nat.
Abbreviation ref := nat.

(** A jQuery object: the matched elements, in order. *)
Abbreviation JQ := (list node).

(** The functions the code installs as callbacks, with what they close
    over. *)
Inductive Handler :=
  | HReturnFalse                 (* function(e) { return false; } *)
  | HResizeContents (dlg : JQ)   (* function(event, ui) { resize_contents(); } *)
  | HPopOut (this : ref)         (* function() { this.popup(this.title); }.bind(this) *)
  | HDialogClose (this : ref).   (* the 'close' option of the dialog *)

Inductive Size := Auto | Px (q : Q).

(** The dialog widget attached to an element: its options and the wrapper
    the toolkit put around the element. *)
Record Dialog := {
  d_modal : bool;
  d_title : option string;
  d_close : option Handler;
  d_height : Size;
  d_width : Size;
  d_position : option (list Q);
  d_wrapper : node
}.

(** The argument of [elm.dialog({...})]: the options that are given.  A
    key that is given counts whatever its value: [popup] always gives
    [title], be it [undefined]. *)
Record DialogOptions := {
  o_modal : option bool;
  o_title : option (option string);
  o_close : option Handler;
  o_height : option Size;
  o_width : option Size;
  o_position : option (list Q)
}.

(** What the browser laid out for an element: the content box, padding
    and border (both sides together), and the offset in the document. *)
Record Box := {
  b_height : Q; b_width : Q;
  b_pad_v : Q; b_pad_h : Q;
  b_border_v : Q; b_border_h : Q;
  b_top : Q; b_left : Q
}.

Record Elem := {
  e_tag : string;
  e_id : option string;
  e_class : list string;
  e_attrs : list (string * string);
  e_text : string;
  e_children : list node;
  e_shown : bool;
  e_overflow_hidden : bool;
  e_box : Box;
  e_dialog : option Dialog;
  e_handlers : list (string * Handler)
}.

Definition box0 : Box :=
  {| b_height := 0; b_width := 0; b_pad_v := 0; b_pad_h := 0;
     b_border_v := 0; b_border_h := 0; b_top := 0; b_left := 0 |}.

(** An element made from markup: [<tag id=...>text</tag>]. *)
Definition new_elem (tag : string) (id : option string)
    (attrs : list (string * string)) (text : string) : Elem :=
  {| e_tag := tag; e_id := id; e_class := []; e_attrs := attrs;
     e_text := text; e_children := []; e_shown := true;
     e_overflow_hidden := false; e_box := box0; e_dialog := None;
     e_handlers := [] |}.

Definition set_children (cs : list node) (e : Elem) : Elem :=
  {| e_tag := e_tag e; e_id := e_id e; e_class := e_class e;
     e_attrs := e_attrs e; e_text := e_text e; e_children := cs;
     e_shown := e_shown e; e_overflow_hidden := e_overflow_hidden e;
     e_box := e_box e; e_dialog := e_dialog e;
     e_handlers := e_handlers e |}.

Definition set_text (t : string) (e : Elem) : Elem :=
  {| e_tag := e_tag e; e_id := e_id e; e_class := e_class e;
     e_attrs := e_attrs e; e_text := t; e_children := e_children e;
     e_shown := e_shown e; e_overflow_hidden := e_overflow_hidden e;
     e_box := e_box e; e_dialog := e_dialog e;
     e_handlers := e_handlers e |}.

Definition set_class (c : list string) (e : Elem) : Elem :=
  {| e_tag := e_tag e; e_id := e_id e; e_class := c;
     e_attrs := e_attrs e; e_text := e_text e; e_children := e_children e;
     e_shown := e_shown e; e_overflow_hidden := e_overflow_hidden e;
     e_box := e_box e; e_dialog := e_dialog e;
     e_handlers := e_handlers e |}.

Definition set_shown (b : bool) (e : Elem) : Elem :=
  {| e_tag := e_tag e; e_id := e_id e; e_class := e_class e;
     e_attrs := e_attrs e; e_text := e_text e; e_children := e_children e;
     e_shown := b; e_overflow_hidden := e_overflow_hidden e;
     e_box := e_box e; e_dialog := e_dialog e;
     e_handlers := e_handlers e |}.

Definition set_overflow_hidden (b : bool) (e : Elem) : Elem :=
  {| e_tag := e_tag e; e_id := e_id e; e_class := e_class e;
     e_attrs := e_attrs e; e_text := e_text e; e_children := e_children e;
     e_shown := e_shown e; e_overflow_hidden := b;
     e_box := e_box e; e_dialog := e_dialog e;
     e_handlers := e_handlers e |}.

Definition set_box (b : Box) (e : Elem) : Elem :=
  {| e_tag := e_tag e; e_id := e_id e; e_class := e_class e;
     e_attrs := e_attrs e; e_text := e_text e; e_children := e_children e;
     e_shown := e_shown e; e_overflow_hidden := e_overflow_hidden e;
     e_box := b; e_dialog := e_dialog e;
     e_handlers := e_handlers e |}.

Definition set_dialog (d : option Dialog) (e : Elem) : Elem :=
  {| e_tag := e_tag e; e_id := e_id e; e_class := e_class e;
     e_attrs := e_attrs e; e_text := e_text e; e_children := e_children e;
     e_shown := e_shown e; e_overflow_hidden := e_overflow_hidden e;
     e_box := e_box e; e_dialog := d;
     e_handlers := e_handlers e |}.

Definition set_handlers (h : list (string * Handler)) (e : Elem) : Elem :=
  {| e_tag := e_tag e; e_id := e_id e; e_class := e_class e;
     e_attrs := e_attrs e; e_text := e_text e; e_children := e_children e;
     e_shown := e_shown e; e_overflow_hidden := e_overflow_hidden e;
     e_box := e_box e; e_dialog := e_dialog e;
     e_handlers := h |}.

Definition set_height (h : Q) (e : Elem) : Elem :=
  let b := e_box e in
  set_box {| b_height := h; b_width := b_width b;
             b_pad_v := b_pad_v b; b_pad_h := b_pad_h b;
             b_border_v := b_border_v b; b_border_h := b_border_h b;
             b_top := b_top b; b_left := b_left b |} e.

Definition set_width (w : Q) (e : Elem) : Elem :=
  let b := e_box e in
  set_box {| b_height := b_height b; b_width := w;
             b_pad_v := b_pad_v b; b_pad_h := b_pad_h b;
             b_border_v := b_border_v b; b_border_h := b_border_h b;
             b_top := b_top b; b_left := b_left b |} e.

(** The getters of jQuery on one element. *)
Definition height (e : Elem) : Q := b_height (e_box e).
Definition width (e : Elem) : Q := b_width (e_box e).
Definition innerHeight (e : Elem) : Q := (height e + b_pad_v (e_box e))%Q.
Definition innerWidth (e : Elem) : Q := (width e + b_pad_h (e_box e))%Q.
Definition outerHeight (e : Elem) : Q :=
  (innerHeight e + b_border_v (e_box e))%Q.
Definition outerWidth (e : Elem) : Q :=
  (innerWidth e + b_border_h (e_box e))%Q.

(** The DOM: elements by handle.  The children lists are the only record
    of the tree; an element that is in no children list is detached.
    Handle [0] is the [document] node, the root of what is on the page. *)
Abbreviation Dom := (gmap node Elem).

Definition document : node := 0.

Definition children_of (d : Dom) (n : node) : list node :=
  match d !! n with
  | Some e => e_children e
  | None => []
  end.

(** The descendants of [n] in document order, down to depth [fuel]. *)
Fixpoint descendants (fuel : nat) (d : Dom) (n : node) : list node :=
  match fuel with
  | O => []
  | S k => flat_map (fun c => c :: descendants k d c) (children_of d n)
  end.

Definition all_descendants (d : Dom) (n : node) : list node :=
  descendants (S (size d)) d n.

Definition has_id (d : Dom) (id : string) (n : node) : bool :=
  match d !! n with
  | Some e => bool_decide (e_id e = Some id)
  | None => false
  end.

Definition has_class (d : Dom) (c : string) (n : node) : bool :=
  match d !! n with
  | Some e => bool_decide (c ∈ e_class e)
  | None => false
  end.

Definition has_tag (d : Dom) (t : string) (n : node) : bool :=
  match d !! n with
  | Some e => bool_decide (e_tag e = t)
  | None => false
  end.

(** The element that has [n] among its children, if any. *)
Definition parent_of (d : Dom) (n : node) : option node :=
  fst <$> head (filter (fun pe => n ∈ e_children pe.2) (map_to_list d)).

(** Take [n] out of every children list. *)
Definition detach (n : node) (d : Dom) : Dom :=
  (fun e => set_children (filter (fun c => c ≠ n) (e_children e)) e) <$> d.

(** Make [n] the last child of [p]. *)
Definition append_child (p n : node) (d : Dom) : Dom :=
  alter (fun e => set_children (e_children e ++ [n]) e) p (detach n d).

(** A handle that is not in use (and is not the document's). *)
Definition fresh_node (d : Dom) : node := fresh ({[document]} ∪ dom d).

Definition each (f : node -> Dom -> Dom) (j : JQ) (d : Dom) : Dom :=
  foldl (fun d n => f n d) d j.

(** *** jQuery *)

(** The characters of a plain name: letters, digits, [_] and [-]. *)
Definition id_char (a : Ascii.ascii) : bool :=
  let n := Ascii.nat_of_ascii a in
  (Nat.leb 48 n && Nat.leb n 57) || (Nat.leb 65 n && Nat.leb n 90)
  || (Nat.leb 97 n && Nat.leb n 122) || Nat.eqb n 95 || Nat.eqb n 45.

(** An id that [init] can use as a plain name.  It is made of letters,
    digits, [_] and [-]: for such a string jQuery's quick pattern (a hash
    sign followed by word characters and hyphens only) sends
    [jQuery("#" + id)] to [document.getElementById],
    and the markup [<div id=ID></div>], built without quotes, gives the new
    element exactly that id.  And it is not [__proto__], which as a property
    name sets the prototype of an object instead of adding a property.  Any
    other string is a selector for jQuery's selector engine or markup for
    the HTML parser, which are not represented: what is proved about [init]
    with an id is proved for plain ids. *)
Definition plain_id (id : string) : bool :=
  forallb id_char (String.list_ascii_of_string id)
  && negb (String.eqb id "__proto__").

(** [jQuery("#" + id)] for a plain id: the first element of the document
    with that id, as [document.getElementById] finds it. *)
Definition jq_id (id : string) (d : Dom) : JQ :=
  option_list (head (filter (fun n => has_id d id n) (all_descendants d document))).

(** [jQuery('body')] *)
Definition jq_tag (t : string) (d : Dom) : JQ :=
  filter (fun n => has_tag d t n) (all_descendants d document).

(** [j.find('.c')] *)
Definition jq_find (c : string) (j : JQ) (d : Dom) : JQ :=
  flat_map (fun n => filter (fun x => has_class d c x) (all_descendants d n)) j.

(** [j.children('.c')] *)
Definition jq_children (c : string) (j : JQ) (d : Dom) : JQ :=
  flat_map (fun n => filter (fun x => has_class d c x) (children_of d n)) j.

(** [j.parent()] *)
Definition jq_parent (j : JQ) (d : Dom) : JQ :=
  remove_dups (omap (parent_of d) j).

(** The getters read the first matched element; on an empty set they
    give [null]. *)
Definition jq_get {A} (f : Elem -> A) (j : JQ) (d : Dom) : option A :=
  n ← head j; f <$> d !! n.

(** [j.height(v)], [j.width(v)], [j.show()], [j.css('overflow','hidden')] *)
Definition jq_set (f : Elem -> Elem) (j : JQ) (d : Dom) : Dom :=
  each (alter f) j d.

(** [j.html("")]: the elements lose their content. *)
Definition jq_html_empty (j : JQ) (d : Dom) : Dom :=
  jq_set (fun e => set_text "" (set_children [] e)) j d.

(** [j.bind(event, handler)] *)
Definition jq_bind (ev : string) (h : Handler) (j : JQ) (d : Dom) : Dom :=
  jq_set (fun e => set_handlers (e_handlers e ++ [(ev, h)]) e) j d.

(** [j.append(markup)]: every matched element gets its own new child. *)
Definition jq_append (e : Elem) (j : JQ) (d : Dom) : Dom :=
  each (fun n d => let c := fresh_node d in append_child n c (<[c := e]> d)) j d.

(** [j.appendTo(target)]: the elements move to the end of the target.  With
    no target nothing moves; with several, the last one receives the
    elements themselves (the copies jQuery makes for the others are not
    represented). *)
Definition jq_appendTo (target : JQ) (j : JQ) (d : Dom) : Dom :=
  match last target with
  | Some p => each (append_child p) j d
  | None => d
  end.

(** [j.remove()]: the elements leave the document. *)
Definition jq_remove (j : JQ) (d : Dom) : Dom := each detach j d.

(** *** The dialog toolkit

    [elm.dialog(...)] belongs to the windowing toolkit the frame is built
    on (jQuery UI, release 1.8).  It is represented by what the frame relies
    on: creating the widget wraps the element in a dialog window at the end
    of the page's body and shows it; calling it again sets the options that
    are given, each key of the argument; a position given as an array puts
    the dialog window at those offsets; ['destroy'] takes the widget away,
    leaving the element hidden at the end of the body; a method call on an
    element that has no widget does nothing. *)
Definition dialog_defaults (wrapper : node) : Dialog :=
  {| d_modal := false; d_title := None; d_close := None;
     d_height := Auto; d_width := Px 300; d_position := None;
     d_wrapper := wrapper |}.

Definition apply_options (o : DialogOptions) (dl : Dialog) : Dialog :=
  {| d_modal := default (d_modal dl) (o_modal o);
     d_title := default (d_title dl) (o_title o);
     d_close := from_option Some (d_close dl) (o_close o);
     d_height := default (d_height dl) (o_height o);
     d_width := default (d_width dl) (o_width o);
     d_position := from_option Some (d_position dl) (o_position o);
     d_wrapper := d_wrapper dl |}.

Definition body (d : Dom) : option node := head (jq_tag "body" d).

Definition set_offset (top left : Q) (e : Elem) : Elem :=
  set_box {| b_height := b_height (e_box e); b_width := b_width (e_box e);
             b_pad_v := b_pad_v (e_box e); b_pad_h := b_pad_h (e_box e);
             b_border_v := b_border_v (e_box e);
             b_border_h := b_border_h (e_box e);
             b_top := top; b_left := left |} e.

(** A position given as an array is, for the toolkit, the pair [[x, y]]:
    the dialog window goes [x] pixels from the left edge and [y] pixels from
    the top edge of the viewport. *)
Definition place (position : option (list Q)) (wrapper : node) (d : Dom) : Dom :=
  match position with
  | Some [x; y] => alter (set_offset y x) wrapper d
  | _ => d
  end.

Definition dialog1 (o : DialogOptions) (n : node) (d : Dom) : Dom :=
  match d !! n with
  | None => d
  | Some e =>
      match e_dialog e with
      | Some dl =>
          place (o_position o) (d_wrapper dl)
            (alter (set_dialog (Some (apply_options o dl))) n d)
      | None =>
          let w := fresh_node d in
          let d1 := <[w := set_class ["ui-dialog"] (new_elem "div" None [] "")]> d in
          let d2 := match body d with
                    | Some b => append_child b w d1
                    | None => d1
                    end in
          let d3 := append_child w n d2 in
          place (o_position o) w
            (alter (fun e => set_shown true
                      (set_dialog (Some (apply_options o (dialog_defaults w))) e))
               n d3)
      end
  end.

Definition destroy1 (n : node) (d : Dom) : Dom :=
  match d !! n with
  | None => d
  | Some e =>
      match e_dialog e with
      | None => d
      | Some dl =>
          let d1 := alter (fun e => set_shown false (set_dialog None e)) n d in
          let d2 := match body d with
                    | Some b => append_child b n d1
                    | None => detach n d1
                    end in
          detach (d_wrapper dl) d2
      end
  end.

Definition option_title1 (t : string) (n : node) (d : Dom) : Dom :=
  alter (fun e =>
    match e_dialog e with
    | None => e
    | Some dl =>
        set_dialog (Some {| d_modal := d_modal dl; d_title := Some t;
                            d_close := d_close dl; d_height := d_height dl;
                            d_width := d_width dl; d_position := d_position dl;
                            d_wrapper := d_wrapper dl |}) e
    end) n d.

(** [j.dialog(options)], [j.dialog('destroy')],
    [j.dialog('option', 'title', t)] *)
Definition jq_dialog (o : DialogOptions) (j : JQ) (d : Dom) : Dom :=
  each (dialog1 o) j d.
Definition jq_dialog_destroy (j : JQ) (d : Dom) : Dom := each destroy1 j d.
Definition jq_dialog_option_title (t : string) (j : JQ) (d : Dom) : Dom :=
  each (option_title1 t) j d.

Definition no_options : DialogOptions :=
  {| o_modal := None; o_title := None; o_close := None;
     o_height := None; o_width := None; o_position := None |}.

(** ** The state of the program *)

(** The menu descriptor handed to [init]; its entries are what the menu
    component renders. *)
Abbreviation MenuDesc := (list string).

(** Methods that a frame overrides are named by a handle; what they do is
    a parameter of the development. *)
Abbreviation Hook := nat.

(** A frame object: the five fields the constructor sets, and the methods
    the object or its subclass supplies: [destructor] as an own property
    that is a function, [update] in place of the prototype's. *)
Record Frame := {
  f_id : option string;
  f_elm : option JQ;
  f_par : option JQ;
  f_title : option string;
  f_menu : option MenuDesc;
  f_destructor : option Hook;
  f_update : option Hook
}.

(** The function handed to [setTimeout] by [popup]. *)
Inductive Callback :=
  | FitInWindow (dlg : JQ).

Record State := {
  uniqueID : option N;                  (* openmdao.uniqueID *)
  frames : option (list (string * ref)); (* openmdao.frames, in the order of enumeration *)
  objects : gmap ref Frame;
  page : Dom;
  window_innerHeight : Q;
  window_innerWidth : Q;
  timers : list (Callback * nat)
}.

Definition with_uniqueID (u : option N) (s : State) : State :=
  {| uniqueID := u; frames := frames s; objects := objects s;
     page := page s; window_innerHeight := window_innerHeight s;
     window_innerWidth := window_innerWidth s; timers := timers s |}.

Definition with_frames (fs : option (list (string * ref))) (s : State) : State :=
  {| uniqueID := uniqueID s; frames := fs; objects := objects s;
     page := page s; window_innerHeight := window_innerHeight s;
     window_innerWidth := window_innerWidth s; timers := timers s |}.

Definition with_objects (o : gmap ref Frame) (s : State) : State :=
  {| uniqueID := uniqueID s; frames := frames s; objects := o;
     page := page s; window_innerHeight := window_innerHeight s;
     window_innerWidth := window_innerWidth s; timers := timers s |}.

Definition with_page (d : Dom) (s : State) : State :=
  {| uniqueID := uniqueID s; frames := frames s; objects := objects s;
     page := d; window_innerHeight := window_innerHeight s;
     window_innerWidth := window_innerWidth s; timers := timers s |}.

Definition with_timers (t : list (Callback * nat)) (s : State) : State :=
  {| uniqueID := uniqueID s; frames := frames s; objects := objects s;
     page := page s; window_innerHeight := window_innerHeight s;
     window_innerWidth := window_innerWidth s; timers := t |}.

(** What a run leaves behind besides the state: the calls it made and the
    identifiers it generated, oldest first. *)
Inductive Event :=
  | EPopup (this : ref) (title : option string)  (* this.popup(title) was called *)
  | EUpdate (frame : ref)                        (* frame.update() was called *)
  | EDestructor (this : ref)                     (* this.destructor() was called *)
  | EUniqueID (id : string)                      (* "BaseFrame"+uniqueID was made *)
  | ETrigger (ev : string).                      (* jQuery('body').trigger(ev) *)

Record Run := { st : State; trace : list Event }.

(** A call returns or throws; either way it leaves a state. *)
Inductive Outcome (A : Type) :=
  | Return (a : A) (r : Run)
  | Throw (e : Exn) (r : Run).
Arguments Return {A} a r.
Arguments Throw {A} e r.

Definition run_of {A} (o : Outcome A) : Run :=
  match o with
  | Return _ r => r
  | Throw _ r => r
  end.

Definition M (A : Type) : Type := Run -> Outcome A.

Definition ret {A} (a : A) : M A := fun r => Return a r.

Definition bind {A B} (m : M A) (k : A -> M B) : M B :=
  fun r =>
    match m r with
    | Return a r' => k a r'
    | Throw e r' => Throw e r'
    end.

Notation "x <- m ;; k" := (bind m (fun x => k))
  (at level 100, m at next level, k at level 200, right associativity,
   only parsing).
Notation "m ;;; k" := (bind m (fun _ => k))
  (at level 100, k at level 200, right associativity, only parsing).

Definition throw {A} (e : Exn) : M A := fun r => Throw e r.

Definition gets {A} (f : State -> A) : M A := fun r => Return (f (st r)) r.

Definition modify (f : State -> State) : M unit :=
  fun r => Return tt {| st := f (st r); trace := trace r |}.

Definition emit (e : Event) : M unit :=
  fun r => Return tt {| st := st r; trace := trace r ++ [e] |}.

(** Reading a property of [x]: a [TypeError] when [x] is null. *)
Definition nonnull {A} (x : option A) : M A :=
  match x with
  | Some a => ret a
  | None => throw TypeError
  end.

Definition get_frame (this : ref) : M Frame :=
  o <- gets objects ;; nonnull (o !! this).

Definition set_frame (this : ref) (f : Frame -> Frame) : M unit :=
  get_frame this ;;;
  modify (fun s => with_objects (alter f this (objects s)) s).

Definition modify_page (f : Dom -> Dom) : M unit :=
  modify (fun s => with_page (f (page s)) s).

Definition set_id (v : option string) (f : Frame) : Frame :=
  {| f_id := v; f_elm := f_elm f; f_par := f_par f; f_title := f_title f;
     f_menu := f_menu f; f_destructor := f_destructor f;
     f_update := f_update f |}.

Definition set_elm (v : option JQ) (f : Frame) : Frame :=
  {| f_id := f_id f; f_elm := v; f_par := f_par f; f_title := f_title f;
     f_menu := f_menu f; f_destructor := f_destructor f;
     f_update := f_update f |}.

Definition set_par (v : option JQ) (f : Frame) : Frame :=
  {| f_id := f_id f; f_elm := f_elm f; f_par := v; f_title := f_title f;
     f_menu := f_menu f; f_destructor := f_destructor f;
     f_update := f_update f |}.

Definition set_title (v : option string) (f : Frame) : Frame :=
  {| f_id := f_id f; f_elm := f_elm f; f_par := f_par f; f_title := v;
     f_menu := f_menu f; f_destructor := f_destructor f;
     f_update := f_update f |}.

Definition set_menu (v : option MenuDesc) (f : Frame) : Frame :=
  {| f_id := f_id f; f_elm := f_elm f; f_par := f_par f; f_title := f_title f;
     f_menu := v; f_destructor := f_destructor f;
     f_update := f_update f |}.

Definition set_methods (d u : option Hook) (f : Frame) : Frame :=
  {| f_id := f_id f; f_elm := f_elm f; f_par := f_par f; f_title := f_title f;
     f_menu := f_menu f; f_destructor := d; f_update := u |}.

(** The name under which a value is stored as a property. *)
Definition prop_key (id : option string) : string := default "null" id.

(** [object[key] = v] for a plain name: an existing property keeps its
    place, a new one goes last.  (The list keeps the order of insertion; a
    JavaScript engine enumerates names that are array indices first, which
    matters only to the order of the broadcast, and the properties of the
    broadcast take the list as it is given.) *)
Fixpoint assign (key : string) (v : ref) (l : list (string * ref)) :
    list (string * ref) :=
  match l with
  | [] => [(key, v)]
  | (k, x) :: l' =>
      if String.eqb k key then (k, v) :: l' else (k, x) :: assign key v l'
  end.

Fixpoint lookup_key (key : string) (l : list (string * ref)) : option ref :=
  match l with
  | [] => None
  | (k, x) :: l' => if String.eqb k key then Some x else lookup_key key l'
  end.

(** ** The menu component *)

(** Modelled from the spec: [openmdao.Menu] (the menu-rendering component,
    Menu.js, is not among the sources).  It "consumes a menu descriptor and
    an anchor element id, produces a rendered menu bar": the anchor is
    looked up in the document by its id and receives a list with one item
    per entry of the descriptor. *)
Definition Menu (id : string) (menu : MenuDesc) (d : Dom) : Dom :=
  match head (jq_id id d) with
  | None => d
  | Some anchor =>
      let ul := fresh_node d in
      let d1 := append_child anchor ul (<[ul := new_elem "ul" None [] ""]> d) in
      foldl (fun d item =>
               let li := fresh_node d in
               append_child ul li (<[li := new_elem "li" None [] item]> d))
            d1 menu
  end.

(** ** BaseFrame.js *)

(** [resize_contents], the function local to [popup]: it closes over
    [dlg]. *)
Definition resize_grid (panel grid : node) (d : Dom) : Dom :=
  let d := jq_set (set_overflow_hidden true) [panel] d in
  let grid_hdr := jq_children "slick-header" [grid] d in
  let grid_vwp := jq_children "slick-viewport" [grid] d in
  let d := jq_set (set_height (num (jq_get innerHeight [panel] d)
                               - num (jq_get outerHeight grid_hdr d))) grid_vwp d in
  match jq_get innerWidth [panel] d with
  | Some w => jq_set (set_width w) grid_vwp d
  | None => d
  end.

Definition resize_panel (pane_height : Q) (pane_width : option Q)
    (panel : node) (d : Dom) : Dom :=
  let d := jq_set (set_height pane_height) [panel] d in
  let d := match pane_width with
           | Some w => jq_set (set_width w) [panel] d
           | None => d
           end in
  each (resize_grid panel) (jq_find "slickgrid" [panel] d) d.

Definition resize_contents (dlg : JQ) (d : Dom) : Dom :=
  let tabs_height := jq_get height (jq_find "ui-tabs-nav" dlg d) d in
  let pane_height := (num (jq_get height dlg d) - num tabs_height)%Q in
  let pane_width := jq_get width dlg d in
  each (resize_panel pane_height pane_width) (jq_find "ui-tabs-panel" dlg d) d.

(** "make sure the popup fits in the window" *)
Definition fit_size (elm : JQ) : M unit :=
  h <- gets (fun s => jq_get height elm (page s)) ;;
  ih <- gets window_innerHeight ;;
  (if Qltb (times ih lit_0_8) (num h)
   then modify_page (jq_set (set_height (times ih lit_0_8)) elm)
   else ret tt) ;;;
  w <- gets (fun s => jq_get width elm (page s)) ;;
  iw <- gets window_innerWidth ;;
  (if Qltb (times iw lit_0_8) (num w)
   then modify_page (jq_set (set_width (times iw lit_0_8)) elm)
   else ret tt).

(** The body of the function [popup] hands to [setTimeout]: "check for
    being out of bounds". *)
Definition fit_top (off_top outer inner : Q) : Q :=
  if Qltb off_top 0 then 0%Q
  else if Qltb inner (off_top + outer) then (inner - outer)%Q
  else off_top.

Definition fit_left (off_left outer inner : Q) : Q :=
  if Qltb off_left 0 then 0%Q
  else if Qltb inner (off_left + outer) then (inner - outer)%Q
  else off_left.

Definition fit_in_window (dlg : JQ) : M unit :=
  o <- gets (fun s => jq_get e_box dlg (page s)) ;;
  off <- nonnull o ;;
  oh <- gets (fun s => num (jq_get outerHeight dlg (page s))) ;;
  ow <- gets (fun s => num (jq_get outerWidth dlg (page s))) ;;
  ih <- gets window_innerHeight ;;
  iw <- gets window_innerWidth ;;
  let top := fit_top (b_top off) oh ih in
  let left := fit_left (b_left off) ow iw in
  (if negb (Qeq_bool top (b_top off)) || negb (Qeq_bool left (b_left off))
   then modify_page (jq_dialog
          {| o_modal := None; o_title := None; o_close := None;
             o_height := None; o_width := None;
             o_position := Some [top; left] |} dlg)
   else ret tt) ;;;
  modify_page (resize_contents dlg).

(** [this.elm && this.elm.length > 0] *)
Definition exists_elm (elm : option JQ) : bool :=
  match elm with
  | Some j => bool_decide (0 < length j)
  | None => false
  end.

Definition setTimeout (c : Callback) (ms : nat) : M unit :=
  modify (fun s => with_timers (timers s ++ [(c, ms)]) s).

Definition popup (this : ref) (title : option string) : M unit :=
  emit (EPopup this title) ;;;
  f <- get_frame this ;;
  dlg <- nonnull (f_elm f) ;;
  modify_page (jq_dialog
    {| o_modal := Some false; o_title := Some title;
       o_close := Some (HDialogClose this);
       o_height := Some Auto; o_width := Some Auto;
       o_position := None |} dlg) ;;;
  modify_page (jq_bind "dialogresizestop" (HResizeContents dlg) dlg) ;;;
  f <- get_frame this ;;
  elm <- nonnull (f_elm f) ;;
  fit_size elm ;;;
  setTimeout (FitInWindow dlg) 120.

Definition init (this : ref) (id title : option string)
    (menu : option MenuDesc) : M unit :=
  set_frame this (fun f => set_menu menu (set_title title (set_id id f))) ;;;
  (if truthy id then
     d <- gets page ;;
     set_frame this (set_elm (Some (jq_id (prop_key id) d)))
   else
     u <- gets uniqueID ;;
     modify (with_uniqueID
       (if truthy_num u then Some (default 0 u + 1)%N else Some 1%N)) ;;;
     u <- gets uniqueID ;;
     set_frame this (set_id (Some ("BaseFrame" +:+ decimal (default 0%N u)))) ;;;
     emit (EUniqueID ("BaseFrame" +:+ decimal (default 0%N u)))) ;;;
  (* add to list of frames *)
  modify (fun s => match frames s with
                   | None => with_frames (Some []) s
                   | Some _ => s
                   end) ;;;
  f <- get_frame this ;;
  modify (fun s => with_frames
            (Some (assign (prop_key (f_id f)) this (default [] (frames s)))) s) ;;;
  (* if the elm doesn't exist, create it as a popup *)
  (if exists_elm (f_elm f) then
     d <- gets page ;;
     set_frame this (set_par (Some (jq_parent (default [] (f_elm f)) d)))
   else
     set_frame this (set_par None) ;;;
     d <- gets page ;;
     modify_page (insert (fresh_node d) (new_elem "div" (f_id f) [] "")) ;;;
     set_frame this (set_elm (Some [fresh_node d])) ;;;
     popup this (f_title f)) ;;;
  (* delete any existing content and prevent browser context menu *)
  f <- get_frame this ;;
  elm <- nonnull (f_elm f) ;;
  modify_page (jq_html_empty elm) ;;;
  modify_page (jq_bind "contextmenu" HReturnFalse elm) ;;;
  (* create menubar and add menu if one has been provided *)
  match f_menu f with
  | Some menu =>
      let menuID := prop_key (f_id f) +:+ "-menu" in
      modify_page (jq_append (new_elem "nav2" (Some menuID) [] "") elm) ;;;
      modify_page (Menu menuID menu) ;;;
      d <- gets page ;;
      let pop_btn := fresh_node d in
      modify_page (insert pop_btn
        (new_elem "div" None
           [("title", "Pop Out");
            ("style", "position:absolute;top:5px;right:5px;z-index:1001")]
           "*")) ;;;
      modify_page (jq_bind "click" (HPopOut this) [pop_btn]) ;;;
      modify_page (jq_appendTo elm [pop_btn])
  | None => ret tt
  end.

Definition setTitle (this : ref) (title : option string) : M unit :=
  if truthy title then
    set_frame this (set_title title) ;;;
    f <- get_frame this ;;
    elm <- nonnull (f_elm f) ;;
    modify_page (jq_dialog_option_title (default "" title) elm)
  else ret tt.

(** The prototype's [update] is a place holder. *)
Definition update (this : ref) : M unit := ret tt.

Section Methods.

(** What the methods supplied by subclasses do: given [this], they change
    the state and return, or throw. *)
Variable method : Hook -> ref -> State -> State * option Exn.

Definition call_method (h : Hook) (this : ref) : M unit :=
  fun r =>
    match method h this (st r) with
    | (s, None) => Return tt {| st := s; trace := trace r |}
    | (s, Some e) => Throw e {| st := s; trace := trace r |}
    end.

(** The first statement of [close]: [this.destructor()], when the frame
    has one of its own. *)
Definition call_destructor (this : ref) : M unit :=
  f <- get_frame this ;;
  match f_destructor f with
  | Some h => emit (EDestructor this) ;;; call_method h this
  | None => ret tt
  end.

Definition close (this : ref) : M unit :=
  call_destructor this ;;;
  (* assuming I'm a dialog: if I have a parent then re-dock with it, else self-destruct *)
  f <- get_frame this ;;
  match f_par f with
  | Some par =>
      elm <- nonnull (f_elm f) ;;
      modify_page (jq_dialog_destroy elm) ;;;
      modify_page (jq_appendTo par elm) ;;;
      modify_page (jq_set (set_shown true) elm)
  | None =>
      elm <- nonnull (f_elm f) ;;
      modify_page (jq_dialog_destroy elm) ;;;
      modify_page (jq_remove elm)
  end.

(** [frame.update()]: the frame's own method if it has one, else the
    prototype's. *)
Definition call_update (frame : ref) : M unit :=
  f <- get_frame frame ;;
  match f_update f with
  | Some h => call_method h frame
  | None => update frame
  end.

(** [jQuery.each(object, callback)] with a callback that returns nothing:
    the callback is run on every property that the object has when the loop
    starts and still has when its turn comes, with the value it has then.
    On [undefined] it fails reading [length].  (It reads [object.length] to
    tell arrays from objects, so the object is taken to have no property of
    that name: the properties of the broadcast say so.) *)
Fixpoint each_frame (keys : list string) (callback : string -> ref -> M unit) :
    M unit :=
  match keys with
  | [] => ret tt
  | k :: keys' =>
      fs <- gets frames ;;
      match lookup_key k (default [] fs) with
      | Some frame => callback k frame
      | None => ret tt
      end ;;;
      each_frame keys' callback
  end.

Definition openmdao_update : M unit :=
  fs <- gets frames ;;
  object <- nonnull fs ;;
  each_frame (map fst object)
    (fun id frame => emit (EUpdate frame) ;;; call_update frame).

(** Running the callbacks that the frame installed. *)
Definition fire (h : Handler) : M unit :=
  match h with
  | HReturnFalse => ret tt
  | HResizeContents dlg => modify_page (resize_contents dlg)
  | HPopOut this => f <- get_frame this ;; popup this (f_title f)
  | HDialogClose this => close this ;;; emit (ETrigger "layoutresizeall")
  end.

Definition run_callback (c : Callback) : M unit :=
  match c with
  | FitInWindow dlg => fit_in_window dlg
  end.

(** A pending timer expires: it leaves the queue and its function runs. *)
Definition expire (i : nat) : M unit :=
  ts <- gets timers ;;
  match ts !! i with
  | Some (c, _) =>
      modify (with_timers (delete i ts)) ;;;
      run_callback c
  | None => ret tt
  end.

End Methods.

(** [new openmdao.BaseFrame()] *)
Definition BaseFrame : M ref :=
  o <- gets objects ;;
  let this := fresh (dom o) in
  modify (with_objects
    (<[this := {| f_id := None; f_elm := None; f_par := None;
                  f_title := Some ""; f_menu := None;
                  f_destructor := None; f_update := None |}]> o)) ;;;
  ret this.

(** ** The vocabulary of the properties *)

(** Two pages carry the same dialogs. *)
Definition same_dialogs (d d' : Dom) : Prop :=
  forall n, e_dialog <$> d' !! n = e_dialog <$> d !! n.


(** The calls of [popup] that a trace records. *)
Definition popup_calls (t : list Event) : list (ref * option string) :=
  omap (fun ev => match ev with
                  | EPopup this title => Some (this, title)
                  | _ => None
                  end) t.

(** The run [r'] differs from [r] in the page and the timers only. *)
Definition same_objects (r r' : Run) : Prop :=
  uniqueID (st r') = uniqueID (st r) /\
  frames (st r') = frames (st r) /\
  objects (st r') = objects (st r).



(** The value [init] gives [openmdao.uniqueID] when it needs an id: one
    more than the counter (exact below 2^53, where doubles still tell
    neighbouring integers apart). *)
Definition next_uniqueID (u : option N) : N :=
  if truthy_num u then (default 0 u + 1)%N else 1%N.

(** What a page does with frames, one call at a time. *)
Inductive Action :=
  | ANew                                   (* new openmdao.BaseFrame() *)
  | AMethods (this : ref) (destructor upd : option Hook)
                                           (* a subclass supplies methods *)
  | AInit (this : ref) (id title : option string) (menu : option MenuDesc)
  | APopup (this : ref) (title : option string)
  | ASetTitle (this : ref) (title : option string)
  | AClose (this : ref)
  | AUpdate                                (* openmdao.update() *)
  | AFire (h : Handler)                    (* an event reaches a handler *)
  | ATimeout (i : nat)                     (* the i-th pending timer expires *)
  | ABrowser (f : Dom -> Dom).             (* layout, the user, other scripts *)

Definition perform (method : Hook -> ref -> State -> State * option Exn)
    (a : Action) : M unit :=
  match a with
  | ANew => BaseFrame ;;; ret tt
  | AMethods this d u => set_frame this (set_methods d u)
  | AInit this id title menu => init this id title menu
  | APopup this title => popup this title
  | ASetTitle this title => setTitle this title
  | AClose this => close method this
  | AUpdate => openmdao_update method
  | AFire h => fire method h
  | ATimeout i => expire i
  | ABrowser f => modify_page f
  end.

(** An exception ends the call that raised it; the page goes on from the
    state it left. *)
Definition run_script (method : Hook -> ref -> State -> State * option Exn)
    (script : list Action) (r : Run) : Run :=
  foldl (fun r a => run_of (perform method a r)) r script.

(** The run [r'] continues [r] without touching the counter and without
    generating an identifier. *)
Definition keeps_ids (r r' : Run) : Prop :=
  uniqueID (st r') = uniqueID (st r) /\
  exists evs, trace r' = trace r ++ evs /\ forall s, EUniqueID s ∉ evs.

(** Every identifier generated so far carries a number that the counter has
    reached. *)
Definition ids_bounded (r : Run) : Prop :=
  forall s, EUniqueID s ∈ trace r ->
    exists k u, s = "BaseFrame" +:+ decimal k /\
                uniqueID (st r) = Some u /\ (k <= u)%N.

(** A computation that keeps the identifiers, however it ends. *)
Definition quiet {A} (m : M A) : Prop := forall r, keeps_ids r (run_of (m r)).

(** ** A page to run the frames on *)

(** A document whose body holds one pane with a paragraph in it; the pane
    is laid out 100 by 200 pixels, 50 pixels above the top of the window
    and reaching 100 pixels past its right edge. *)
Definition demo_box : Box :=
  {| b_height := 100; b_width := 200; b_pad_v := 0; b_pad_h := 0;
     b_border_v := 0; b_border_h := 0; b_top := -50; b_left := 700 |}.

Definition demo_pane : Elem :=
  set_box demo_box (set_children [3] (new_elem "div" (Some "pane") [] "")).

Definition demo_page : Dom :=
  <[3 := new_elem "p" None [] "hello"]>
  (<[2 := demo_pane]>
  (<[1 := set_children [2] (new_elem "body" None [] "")]>
  (<[0 := set_children [1] (new_elem "#document" None [] "")]> ∅))).

Definition demo_state : State :=
  {| uniqueID := None; frames := None; objects := ∅; page := demo_page;
     window_innerHeight := 600; window_innerWidth := 800; timers := [] |}.

Definition demo_run : Run := {| st := demo_state; trace := [] |}.

(** Method 0 returns, method 1 throws; neither changes anything. *)
Definition demo_method (h : Hook) (this : ref) (s : State) :
    State * option Exn :=
  match h with
  | 0 => (s, None)
  | _ => (s, Some (UserError h))
  end.

(** Three frames: a popup with a title, a frame docked on the pane and then
    popped out, and a popup whose [destructor] and [update] throw. *)
Definition demo_script : list Action :=
  [ANew; AInit 0 None (Some "Popup") None;
   ANew; AInit 1 (Some "pane") (Some "Pane") (Some ["File"; "Edit"]);
   APopup 1 (Some "Pane");
   ANew; AMethods 2 (Some 1) (Some 1); AInit 2 None (Some "Fragile") None].

Definition demo_frames : Run := run_script demo_method demo_script demo_run.


(** The pane as the script leaves it: a dialog, with its menu. *)
Definition demo_popped_pane : Elem :=
  Eval vm_compute in default demo_pane (page (st demo_frames) !! 2).






(** A window so small that the pane exceeds 80% of it both ways. *)
Definition demo_small : Run :=
  {| st := {| uniqueID := None; frames := None; objects := ∅;
              page := demo_page; window_innerHeight := 100;
              window_innerWidth := 100; timers := [] |};
     trace := [] |}.

(** The frames of the script. *)
Definition demo_blank : Frame :=
  {| f_id := None; f_elm := None; f_par := None; f_title := Some "";
     f_menu := None; f_destructor := None; f_update := None |}.


Definition demo_docked : Frame :=
  Eval vm_compute in default demo_blank (objects (st demo_frames) !! 1).

Definition demo_fragile : Frame :=
  Eval vm_compute in default demo_blank (objects (st demo_frames) !! 2).



(** The page with one frame constructed and not yet initialised. *)
Definition demo_new : Run := run_script demo_method [ANew] demo_run.

(** ** More vocabulary *)

(** The page [d'] has the elements of [d], and what [f] reads of each is
    the same. *)
Definition keeps {A} (f : Elem -> A) (d d' : Dom) : Prop :=
  forall n, f <$> d' !! n = f <$> d !! n.

(** Everything about an element but its box and its overflow. *)
Definition but_geometry (e : Elem) :=
  (e_tag e, e_id e, e_class e, e_attrs e, e_text e, e_children e,
   e_shown e, e_dialog e, e_handlers e).

(** Everything about an element but its children and its text. *)
Definition but_tree (e : Elem) :=
  (e_tag e, e_id e, e_class e, e_attrs e, e_shown e, e_overflow_hidden e,
   e_box e, e_dialog e, e_handlers e).


(** The page [d'] has the elements of [d], maybe more, and what [f] reads
    of each element of [d] is the same. *)
Definition extends {A} (f : Elem -> A) (d d' : Dom) : Prop :=
  forall n e, d !! n = Some e -> f <$> d' !! n = Some (f e).

(** The names under which frames are registered, in the order of the
    registry. *)
Definition registry_keys (r : Run) : list string :=
  map fst (default [] (frames (st r))).

(** A computation that leaves the registry alone, however it ends. *)
Definition calm {A} (m : M A) : Prop :=
  forall r, frames (st (run_of (m r))) = frames (st r).

(** The identifiers that a trace records as generated, oldest first. *)
Definition generated (t : list Event) : list string :=
  omap (fun ev => match ev with
                  | EUniqueID s => Some s
                  | _ => None
                  end) t.

(** The identifier made from the number [k]. *)
Definition BaseFrame_id (k : nat) : string :=
  "BaseFrame" +:+ decimal (N.of_nat k).

(** The identifiers generated so far are those of the numbers up to the
    counter. *)
Definition numbered (r : Run) : Prop :=
  generated (trace r)
  = map BaseFrame_id (seq 1 (N.to_nat (default 0%N (uniqueID (st r))))).

(** ** More of the example page *)

(** The popped-out pane of the script, 100 by 200 pixels, laid out at
    [top] and [left] in a window of [ih] by [iw] pixels. *)
Definition demo_moved (top left : Q) : Elem :=
  set_box {| b_height := 100; b_width := 200; b_pad_v := 0; b_pad_h := 0;
             b_border_v := 0; b_border_h := 0; b_top := top; b_left := left |}
          demo_popped_pane.

Definition demo_placed (top left ih iw : Q) : Run :=
  {| st := {| uniqueID := uniqueID (st demo_frames);
              frames := frames (st demo_frames);
              objects := objects (st demo_frames);
              page := <[2 := demo_moved top left]> (page (st demo_frames));
              window_innerHeight := ih; window_innerWidth := iw;
              timers := timers (st demo_frames) |};
     trace := trace demo_frames |}.

(** A dialog of 300 by 400 pixels with a tab bar 30 pixels high and two
    panels. *)
Definition demo_sized (h w : Q) (e : Elem) : Elem :=
  set_box {| b_height := h; b_width := w; b_pad_v := 0; b_pad_h := 0;
             b_border_v := 0; b_border_h := 0; b_top := 0; b_left := 0 |} e.

Definition demo_tab_bar : Elem :=
  demo_sized 30 400 (set_class ["ui-tabs-nav"] (new_elem "ul" None [] "")).

Definition demo_tabbed : Elem :=
  demo_sized 300 400 (set_children [3; 4; 5] (new_elem "div" (Some "tabs") [] "")).

Definition demo_tabs : Dom :=
  <[5 := set_class ["ui-tabs-panel"] (new_elem "div" None [] "two")]>
  (<[4 := set_class ["ui-tabs-panel"] (new_elem "div" None [] "one")]>
  (<[3 := demo_tab_bar]>
  (<[2 := demo_tabbed]>
  (<[1 := set_children [2] (new_elem "body" None [] "")]>
  (<[0 := set_children [1] (new_elem "#document" None [] "")]> ∅))))).

(** The pane, 700 pixels high, in a window of 768 by 1024 pixels. *)
Definition demo_tall : Run :=
  {| st := {| uniqueID := None; frames := None; objects := ∅;
              page := <[2 := demo_sized 700 200 demo_pane]> demo_page;
              window_innerHeight := 768; window_innerWidth := 1024;
              timers := [] |};
     trace := [] |}.

Definition demo_tall_clamped : Run :=
  Eval vm_compute in run_of (fit_size [2] demo_tall).

Definition demo_tall_pane : Elem :=
  Eval vm_compute in default demo_pane (page (st demo_tall_clamped) !! 2).

(** Two frames without methods of their own: a popup, and a frame docked
    on the pane. *)
Definition demo_plain : Run :=
  run_script demo_method
    [ANew; AInit 0 None (Some "Popup") None;
     ANew; AInit 1 (Some "pane") (Some "Pane") (Some ["File"; "Edit"])]
    demo_run.

Definition demo_plain_docked : Frame :=
  Eval vm_compute in default demo_blank (objects (st demo_plain) !! 1).

Definition demo_plain_pane : Elem :=
  Eval vm_compute in default demo_pane (page (st demo_plain) !! 2).

Definition demo_plain_body : Elem :=
  Eval vm_compute in default demo_pane (page (st demo_plain) !! 1).

(** * Properties *)

(** ** Comparisons and the store *)

Lemma Qltb_lt (x y : Q) : Qltb x y = true <-> (x < y)%Q.
Proof.
  unfold Qltb. rewrite negb_true_iff, <- not_true_iff_false, Qle_bool_iff.
  split; [apply Qnot_le_lt | apply Qlt_not_le].
Qed.

Lemma Qltb_ge (x y : Q) : Qltb x y = false <-> (y <= x)%Q.
Proof.
  unfold Qltb. rewrite negb_false_iff. apply Qle_bool_iff.
Qed.

Ltac state_simpl :=
  cbn [st trace page frames objects uniqueID timers
       window_innerHeight window_innerWidth
       with_page with_frames with_objects with_uniqueID with_timers
       run_of fmap option_fmap option_map mbind option_bind num default
       Datatypes.id
       from_option] in *.

Ltac run_simpl :=
  repeat progress
    (unfold bind, gets, modify_page, modify, emit, ret, throw, nonnull in *;
     state_simpl).

Lemma jq_set_one (f : Elem -> Elem) (n : node) (d : Dom) :
  jq_set f [n] d = alter f n d.
Proof. reflexivity. Qed.

Lemma jq_get_one {A} (f : Elem -> A) (n : node) (d : Dom) :
  jq_get f [n] d = f <$> d !! n.
Proof. reflexivity. Qed.

(** ** Doubles *)

Lemma round_half_even_close (n d : Z) :
  (0 < d)%Z -> (Z.abs (2 * round_half_even n d * d - 2 * n) <= d)%Z.
Proof.
  intros Hd. unfold round_half_even.
  pose proof (Z.div_mod n d ltac:(lia)) as H.
  pose proof (Z.mod_pos_bound n d Hd) as Hm.
  destruct (Z.compare_spec (2 * (n mod d)) d);
    [destruct (Z.even (n / d))|..]; nia.
Qed.

Lemma pow2_pos (k : Z) : (0 <= k)%Z -> (0 < 2 ^ k)%Z.
Proof. intros. apply Z.pow_pos_nonneg; lia. Qed.

Lemma scaled_pos (n d e : Z) :
  (0 < n)%Z -> (0 < d)%Z ->
  (0 < fst (scaled n d e))%Z /\ (0 < snd (scaled n d e))%Z.
Proof.
  intros Hn Hd. unfold scaled.
  destruct (Z.leb_spec 0 e); cbn [fst snd].
  - pose proof (pow2_pos e ltac:(lia)). nia.
  - pose proof (pow2_pos (- e) ltac:(lia)). nia.
Qed.

(** Before the adjustment of the exponent the quotient may be one bit
    short. *)
Lemma scaled_range0 (n d : Z) :
  (0 < n)%Z -> (0 < d)%Z ->
  let e := (Z.log2 n - Z.log2 d - 52)%Z in
  (snd (scaled n d e) * 2 ^ 51 <= fst (scaled n d e))%Z.
Proof.
  intros Hn Hd e.
  pose proof (Z.log2_spec n Hn) as [Hn1 _].
  pose proof (Z.log2_spec d Hd) as [_ Hd2].
  pose proof (Z.log2_nonneg n) as Hln. pose proof (Z.log2_nonneg d) as Hld.
  unfold scaled. destruct (Z.leb_spec 0 e); cbn [fst snd].
  - assert (2 ^ Z.log2 n = 2 ^ Z.succ (Z.log2 d) * 2 ^ e * 2 ^ 51)%Z as E.
    { rewrite <- !Z.pow_add_r by lia. f_equal. lia. }
    pose proof (pow2_pos e ltac:(lia)).
    assert (d * 2 ^ e * 2 ^ 51 <= 2 ^ Z.succ (Z.log2 d) * 2 ^ e * 2 ^ 51)%Z.
    { apply Z.mul_le_mono_nonneg_r; [lia|].
      apply Z.mul_le_mono_nonneg_r; lia. }
    lia.
  - assert (2 ^ Z.log2 n * 2 ^ (- e) = 2 ^ Z.succ (Z.log2 d) * 2 ^ 51)%Z as E.
    { rewrite <- !Z.pow_add_r by lia. f_equal. lia. }
    pose proof (pow2_pos (- e) ltac:(lia)).
    assert (2 ^ Z.log2 n * 2 ^ (- e) <= n * 2 ^ (- e))%Z
      by (apply Z.mul_le_mono_nonneg_r; lia).
    assert (d * 2 ^ 51 <= 2 ^ Z.succ (Z.log2 d) * 2 ^ 51)%Z
      by (apply Z.mul_le_mono_nonneg_r; lia).
    lia.
Qed.

(** Lowering the exponent by one doubles the quotient. *)
Lemma scaled_pred (n d e : Z) :
  (0 < n)%Z -> (0 < d)%Z ->
  (fst (scaled n d (e - 1)) * snd (scaled n d e)
   = 2 * fst (scaled n d e) * snd (scaled n d (e - 1)))%Z.
Proof.
  intros Hn Hd. unfold scaled.
  destruct (Z.leb_spec 0 e), (Z.leb_spec 0 (e - 1)); cbn [fst snd]; try lia.
  - replace e with (Z.succ (e - 1)) at 1 by lia.
    rewrite Z.pow_succ_r by lia. ring.
  - assert (e = 0)%Z as -> by lia.
    replace (2 ^ (- (0 - 1)))%Z with 2%Z by reflexivity.
    replace (2 ^ 0)%Z with 1%Z by reflexivity. ring.
  - replace (- (e - 1))%Z with (Z.succ (- e)) by lia.
    rewrite Z.pow_succ_r by lia. ring.
Qed.

(** At the exponent chosen the significand has its 53 bits. *)
Lemma ulp_exponent_range (n d : Z) :
  (0 < n)%Z -> (0 < d)%Z ->
  (snd (scaled n d (ulp_exponent n d)) * 2 ^ 52
   <= fst (scaled n d (ulp_exponent n d)))%Z.
Proof.
  intros Hn Hd. unfold ulp_exponent.
  set (e := (Z.log2 n - Z.log2 d - 52)%Z).
  pose proof (scaled_range0 n d Hn Hd) as H0. cbv zeta in H0. fold e in H0.
  pose proof (scaled_pred n d e Hn Hd) as Hp.
  pose proof (scaled_pos n d e Hn Hd) as [Hp1 Hp2].
  pose proof (scaled_pos n d (e - 1) Hn Hd) as [Hq1 Hq2].
  destruct (scaled n d e) as [n0 d0] eqn:E0. cbn [fst snd] in *.
  destruct (Z.ltb_spec n0 (d0 * 2 ^ 52)) as [Hlt|Hge].
  - destruct (scaled n d (e - 1)) as [n1 d1]. cbn [fst snd] in *.
    apply (Z.mul_le_mono_pos_r _ _ d0 Hp2).
    replace (n1 * d0)%Z with (2 * n0 * d1)%Z by lia.
    change (2 ^ 52)%Z with (2 * 2251799813685248)%Z.
    change (2 ^ 51)%Z with 2251799813685248%Z in H0. nia.
  - rewrite E0. cbn [fst snd]. exact Hge.
Qed.

(** Rounding moves a positive number by at most half a unit in the last
    place: a relative error of at most 2^-53. *)
Lemma nearest_close (n d : positive) :
  (Qabs (nearest (Zpos n) (Zpos d) - (Zpos n # d))
   <= (Zpos n # d) * (1 # 9007199254740992))%Q.
Proof.
  unfold nearest.
  pose proof (ulp_exponent_range (Zpos n) (Zpos d) eq_refl eq_refl) as Hr.
  pose proof (scaled_pos (Zpos n) (Zpos d) (ulp_exponent (Zpos n) (Zpos d))
                eq_refl eq_refl) as [Hp1 Hp2].
  set (e := ulp_exponent (Zpos n) (Zpos d)) in *.
  unfold scaled in *.
  destruct (Z.leb_spec 0 e) as [He|He]; cbn [fst snd] in *.
  - pose proof (round_half_even_close (Zpos n) (Zpos d * 2 ^ e) Hp2) as Hc.
    set (m := round_half_even (Zpos n) (Zpos d * 2 ^ e)) in *.
    rewrite <- (Zpower_Qpower 2 e He).
    pose proof (pow2_pos e He) as Hk. set (k := (2 ^ e)%Z) in *.
    apply Qabs_Qle_condition.
    change (2 ^ 52)%Z with 4503599627370496%Z in Hr.
    unfold Qle, Qminus, Qplus, Qmult, Qopp, inject_Z; cbn [Qnum Qden].
    rewrite !Pos2Z.inj_mul. split; nia.
  - pose proof (round_half_even_close (Zpos n * 2 ^ (- e)) (Zpos d) eq_refl)
      as Hc.
    set (m := round_half_even (Zpos n * 2 ^ (- e)) (Zpos d)) in *.
    replace e with (- (- e))%Z at 1 by lia. rewrite Qpower_opp.
    rewrite <- (Zpower_Qpower 2 (- e)) by lia.
    pose proof (pow2_pos (- e) ltac:(lia)) as Hk.
    set (k := (2 ^ (- e))%Z) in *.
    destruct k as [|k|k]; try lia.
    apply Qabs_Qle_condition.
    change (2 ^ 52)%Z with 4503599627370496%Z in Hr.
    unfold Qle, Qminus, Qplus, Qmult, Qopp, Qinv, inject_Z; cbn [Qnum Qden].
    rewrite !Pos2Z.inj_mul. split; nia.
Qed.

Lemma to_double_close (q : Q) :
  (Qabs (to_double q - q) <= Qabs q * (1 # 9007199254740992))%Q.
Proof.
  destruct q as [[|n|n] d]; unfold to_double; cbn [Qnum Qden].
  - apply Qabs_Qle_condition. unfold Qle; cbn. lia.
  - change (Qabs (Z.pos n # d)) with (Z.pos n # d). apply nearest_close.
  - change (Qabs (Z.neg n # d)) with (Z.pos n # d).
    pose proof (nearest_close n d) as H.
    apply Qabs_Qle_condition in H. apply Qabs_Qle_condition.
    change (Z.neg n # d) with (- (Z.pos n # d))%Q. split; lra.
Qed.

(** On window sizes that screens have, and on halves and quarters of
    pixels, [times] and the literal are what binary64 arithmetic gives. *)
Lemma times_binary64 :
  (lit_0_8 == Q_of_float float_0_8)%Q /\
  Forall (fun h : spec_float =>
            (times (Q_of_float h) lit_0_8
             == Q_of_float (float_mul h float_0_8))%Q)
    (map (fun m => S754_finite false m 0)
       [1; 100; 480; 600; 768; 900; 1024; 1050; 1080; 1200; 1440; 2160]%positive
     ++ map (fun m => S754_finite false m (-2))
          [1; 3; 1075; 2401; 3073; 4321]%positive).
Proof.
  split; [vm_compute; reflexivity|].
  cbn [map app].
  repeat (apply Forall_cons; split; [vm_compute; reflexivity|]).
  apply Forall_nil. exact I.
Qed.

(** The limit that [popup] computes is 80% of the window up to rounding:
    that of the literal and that of the product. *)
Lemma times_0_8_close (x : Q) :
  (0 <= x)%Q ->
  (Qabs (times x lit_0_8 - x * 0.8) <= x * (1 # 4503599627370496))%Q.
Proof.
  intros Hx. unfold times.
  pose proof (to_double_close (x * lit_0_8)) as H.
  assert (0 <= x * lit_0_8)%Q as Hz
    by (apply Qmult_le_0_compat; [exact Hx|discriminate]).
  rewrite (Qabs_pos _ Hz) in H.
  apply Qabs_Qle_condition in H. apply Qabs_Qle_condition.
  unfold lit_0_8 in *. split; lra.
Qed.

(** ** The size of a popup *)

Lemma fit_size_limits (r : Run) (n : node) (e : Elem) :
  page (st r) !! n = Some e ->
  exists r' e',
    fit_size [n] r = Return tt r' /\
    page (st r') !! n = Some e' /\
    (height e' <= times (window_innerHeight (st r)) lit_0_8)%Q /\
    (width e' <= times (window_innerWidth (st r)) lit_0_8)%Q /\
    ((height e <= times (window_innerHeight (st r)) lit_0_8)%Q ->
     height e' = height e) /\
    ((width e <= times (window_innerWidth (st r)) lit_0_8)%Q ->
     width e' = width e) /\
    ((height e <= times (window_innerHeight (st r)) lit_0_8)%Q ->
     (width e <= times (window_innerWidth (st r)) lit_0_8)%Q -> r' = r).
Proof.
  intros Hn. destruct r as [s t]. cbn [st] in *.
  unfold fit_size, bind, gets, modify_page, modify, ret. state_simpl.
  rewrite jq_get_one, Hn. state_simpl.
  destruct (Qltb (times (window_innerHeight s) lit_0_8) (height e)) eqn:Hh;
    state_simpl; rewrite ?jq_get_one, ?jq_set_one, ?lookup_alter_eq, ?Hn;
    state_simpl; change (width (set_height _ e)) with (width e);
    destruct (Qltb (times (window_innerWidth s) lit_0_8) (width e)) eqn:Hw;
    state_simpl; rewrite ?jq_set_one, ?lookup_alter_eq, ?Hn; state_simpl;
    eexists _, _; (split; [reflexivity|]);
    (split; [state_simpl; rewrite ?lookup_alter_eq, ?Hn; reflexivity|]);
    (apply Qltb_lt in Hh || apply Qltb_ge in Hh);
    (apply Qltb_lt in Hw || apply Qltb_ge in Hw);
    unfold height, width in *; cbn;
    repeat split; intros; try apply Qle_refl; try assumption; try reflexivity;
    try (exfalso; lra).
Qed.

(** C6, amended. After the size-clamping step of [popup] the element's
    height is at most the limit the code computes, the double
    [window.innerHeight*0.8], and its width at most
    [window.innerWidth*0.8]; a dimension that is within its limit keeps its
    value, and when both are the step changes nothing at all.  The limits are
    80% of the window up to rounding: each differs from the exact 80% by at
    most 2^-52 of the window's size. *)
Theorem fit_size_clamps (r : Run) (n : node) (e : Elem) :
  page (st r) !! n = Some e ->
  exists r' e',
    fit_size [n] r = Return tt r' /\
    page (st r') !! n = Some e' /\
    (height e' <= times (window_innerHeight (st r)) lit_0_8)%Q /\
    (width e' <= times (window_innerWidth (st r)) lit_0_8)%Q /\
    ((height e <= times (window_innerHeight (st r)) lit_0_8)%Q ->
     height e' = height e) /\
    ((width e <= times (window_innerWidth (st r)) lit_0_8)%Q ->
     width e' = width e) /\
    ((height e <= times (window_innerHeight (st r)) lit_0_8)%Q ->
     (width e <= times (window_innerWidth (st r)) lit_0_8)%Q -> r' = r) /\
    ((0 <= window_innerHeight (st r))%Q ->
     (Qabs (times (window_innerHeight (st r)) lit_0_8
            - window_innerHeight (st r) * 0.8)
      <= window_innerHeight (st r) * (1 # 4503599627370496))%Q) /\
    ((0 <= window_innerWidth (st r))%Q ->
     (Qabs (times (window_innerWidth (st r)) lit_0_8
            - window_innerWidth (st r) * 0.8)
      <= window_innerWidth (st r) * (1 # 4503599627370496))%Q).
Proof.
  intros Hn.
  destruct (fit_size_limits r n e Hn)
    as (r' & e' & H1 & H2 & H3 & H4 & H5 & H6 & H7).
  exists r', e'. repeat (split; [assumption|]).
  split; apply times_0_8_close.
Qed.

(** ** What the operations on the page keep *)

Lemma dom_detach (n : node) (d : Dom) : dom (detach n d) = dom d.
Proof. unfold detach. apply dom_fmap_L. Qed.

Lemma dom_append_child (p n : node) (d : Dom) :
  dom (append_child p n d) = dom d.
Proof. unfold append_child. rewrite dom_alter_L. apply dom_detach. Qed.

Lemma fresh_node_not_in (d : Dom) : fresh_node d ∉ dom d.
Proof.
  unfold fresh_node. intros H.
  apply (is_fresh ({[document]} ∪ dom d)). set_solver.
Qed.

Lemma fresh_node_lookup (d : Dom) : d !! fresh_node d = None.
Proof. apply not_elem_of_dom, fresh_node_not_in. Qed.

Lemma fresh_node_ne (d : Dom) (n : node) (e : Elem) :
  d !! n = Some e -> fresh_node d ≠ n.
Proof. intros H Heq. rewrite <- Heq, fresh_node_lookup in H. discriminate. Qed.

Lemma same_dialogs_refl (d : Dom) : same_dialogs d d.
Proof. intros n. reflexivity. Qed.

Lemma same_dialogs_trans (d1 d2 d3 : Dom) :
  same_dialogs d1 d2 -> same_dialogs d2 d3 -> same_dialogs d1 d3.
Proof. intros H12 H23 n. rewrite H23. apply H12. Qed.

Lemma same_dialogs_alter (f : Elem -> Elem) (n : node) (d : Dom) :
  (forall e, e_dialog (f e) = e_dialog e) -> same_dialogs d (alter f n d).
Proof.
  intros Hf k. rewrite lookup_alter. case_decide; subst; [|reflexivity].
  destruct (d !! k) as [e|]; cbn; [f_equal; apply Hf | reflexivity].
Qed.

Lemma same_dialogs_each (f : node -> Dom -> Dom) (j : JQ) :
  (forall n d, same_dialogs d (f n d)) ->
  forall d, same_dialogs d (each f j d).
Proof.
  intros Hf. induction j as [|n j IH]; intros d; cbn.
  - apply same_dialogs_refl.
  - eapply same_dialogs_trans; [apply (Hf n) | apply IH].
Qed.

Lemma same_dialogs_jq_set (f : Elem -> Elem) (j : JQ) (d : Dom) :
  (forall e, e_dialog (f e) = e_dialog e) -> same_dialogs d (jq_set f j d).
Proof.
  intros Hf. apply same_dialogs_each. intros n d'.
  apply same_dialogs_alter, Hf.
Qed.

Ltac same_dialogs_step :=
  first
    [ apply same_dialogs_refl
    | eapply same_dialogs_trans;
      [|apply same_dialogs_jq_set; intros; reflexivity] ].

Lemma same_dialogs_resize_grid (panel grid : node) (d : Dom) :
  same_dialogs d (resize_grid panel grid d).
Proof.
  unfold resize_grid. cbv zeta.
  match goal with |- context [match ?x with _ => _ end] => destruct x end;
    repeat same_dialogs_step.
Qed.

Lemma same_dialogs_resize_panel (h : Q) (w : option Q) (panel : node) (d : Dom) :
  same_dialogs d (resize_panel h w panel d).
Proof.
  unfold resize_panel. cbv zeta.
  eapply same_dialogs_trans;
    [|apply same_dialogs_each; intros; apply same_dialogs_resize_grid].
  destruct w; repeat same_dialogs_step.
Qed.

Lemma same_dialogs_resize_contents (dlg : JQ) (d : Dom) :
  same_dialogs d (resize_contents dlg d).
Proof.
  unfold resize_contents. apply same_dialogs_each. intros.
  apply same_dialogs_resize_panel.
Qed.

Lemma lookup_detach (x n : node) (d : Dom) :
  detach x d !! n =
  (fun e => set_children (filter (fun c => c ≠ x) (e_children e)) e) <$> d !! n.
Proof. unfold detach. apply lookup_fmap. Qed.

Lemma same_dialogs_detach (x : node) (d : Dom) : same_dialogs d (detach x d).
Proof.
  intros n. rewrite lookup_detach. destruct (d !! n); reflexivity.
Qed.

Lemma same_dialogs_append_child (p c : node) (d : Dom) :
  same_dialogs d (append_child p c d).
Proof.
  unfold append_child.
  eapply same_dialogs_trans; [apply same_dialogs_detach|].
  apply same_dialogs_alter; reflexivity.
Qed.

Lemma same_dialogs_place (p : option (list Q)) (w : node) (d : Dom) :
  same_dialogs d (place p w d).
Proof.
  unfold place. destruct p as [[|x [|y [|? ?]]]|];
    try apply same_dialogs_refl.
  apply same_dialogs_alter. reflexivity.
Qed.

(** [n.dialog({position: p})] leaves [n] with a dialog whose position
    option is [p], whether or not it had one. *)
Lemma dialog1_position (o : DialogOptions) (p : list Q) (n : node)
    (d : Dom) (e : Elem) :
  d !! n = Some e ->
  o_position o = Some p ->
  exists dl, e_dialog <$> dialog1 o n d !! n = Some (Some dl) /\
             d_position dl = Some p.
Proof.
  intros Hn Hp. unfold dialog1. rewrite Hn.
  destruct (e_dialog e) as [dl|] eqn:Hd; rewrite (same_dialogs_place _ _ _ n).
  - rewrite lookup_alter_eq, Hn. cbn.
    eexists; split; [reflexivity|]. cbn. rewrite Hp. reflexivity.
  - rewrite lookup_alter_eq.
    match goal with |- context [append_child ?w n ?d2 !! n] =>
      assert (is_Some (append_child w n d2 !! n)) as [e' ->] end.
    { apply elem_of_dom. rewrite dom_append_child.
      assert (n ∈ dom d) by (apply elem_of_dom; eauto).
      destruct (body d); rewrite ?dom_append_child, dom_insert_L; set_solver. }
    cbn. eexists; split; [reflexivity|]. cbn. rewrite Hp. reflexivity.
Qed.

(** ** The position of a popup *)

Lemma fit_top_inside (off_top outer inner : Q) :
  (outer <= inner)%Q ->
  (0 <= fit_top off_top outer inner)%Q /\
  (fit_top off_top outer inner + outer <= inner)%Q.
Proof.
  intros Hfit. unfold fit_top.
  destruct (Qltb off_top 0) eqn:H0.
  - split; lra.
  - apply Qltb_ge in H0.
    destruct (Qltb inner (off_top + outer)) eqn:H1.
    + split; lra.
    + apply Qltb_ge in H1. split; lra.
Qed.

Lemma fit_left_inside (off_left outer inner : Q) :
  (outer <= inner)%Q ->
  (0 <= fit_left off_left outer inner)%Q /\
  (fit_left off_left outer inner + outer <= inner)%Q.
Proof. apply fit_top_inside. Qed.

Lemma fit_top_moves_up (off_top outer inner : Q) :
  (off_top < 0)%Q -> Qeq_bool (fit_top off_top outer inner) off_top = false.
Proof.
  intros H. unfold fit_top. apply Qltb_lt in H as H'. rewrite H'.
  destruct (Qeq_bool 0 off_top) eqn:E; [|reflexivity].
  apply Qeq_bool_iff in E. lra.
Qed.

Lemma fit_left_moves_in (off_left outer inner : Q) :
  (inner < off_left + outer)%Q ->
  (outer <= inner)%Q ->
  Qeq_bool (fit_left off_left outer inner) off_left = false.
Proof.
  intros H Hfit. unfold fit_left.
  destruct (Qltb off_left 0) eqn:H0.
  - apply Qltb_lt in H0.
    destruct (Qeq_bool 0 off_left) eqn:E; [|reflexivity].
    apply Qeq_bool_iff in E. lra.
  - apply Qltb_lt in H as H'. rewrite H'.
    destruct (Qeq_bool (inner - outer) off_left) eqn:E; [|reflexivity].
    apply Qeq_bool_iff in E. lra.
Qed.





(** ** Titles *)

Lemma truthy_Some (x : string) : x ≠ "" -> truthy (Some x) = true.
Proof.
  intros H. cbn. apply negb_true_iff, String.eqb_neq, H.
Qed.

Lemma get_frame_Some (this : ref) (f : Frame) (r : Run) :
  objects (st r) !! this = Some f -> get_frame this r = Return f r.
Proof. intros H. unfold get_frame. run_simpl. rewrite H. reflexivity. Qed.

Lemma set_frame_Some (this : ref) (g : Frame -> Frame) (f : Frame) (r : Run) :
  objects (st r) !! this = Some f ->
  set_frame this g r =
  Return tt {| st := with_objects (alter g this (objects (st r))) (st r);
               trace := trace r |}.
Proof.
  intros H. unfold set_frame, bind. rewrite (get_frame_Some _ _ _ H).
  reflexivity.
Qed.

(** C5. [setTitle] with [null] or the empty string changes nothing: the
    stored title and the title the dialog shows stay as they are.  With a
    non-empty string, on a frame whose element is a dialog, both the stored
    title and the title option of the dialog become that string. *)
Theorem setTitle_updates (this : ref) (r : Run) :
  (forall title, title = None \/ title = Some "" ->
     setTitle this title r = Return tt r) /\
  (forall x f n e dl,
     x ≠ "" ->
     objects (st r) !! this = Some f ->
     f_elm f = Some [n] ->
     page (st r) !! n = Some e ->
     e_dialog e = Some dl ->
     exists r' dl',
       setTitle this (Some x) r = Return tt r' /\
       f_title <$> objects (st r') !! this = Some (Some x) /\
       e_dialog <$> page (st r') !! n = Some (Some dl') /\
       d_title dl' = Some x).
Proof.
  split.
  - intros title [->| ->]; reflexivity.
  - intros x f n e dl Hx Hf Helm Hn Hd. unfold setTitle.
    rewrite (truthy_Some x Hx). unfold bind at 1.
    rewrite (set_frame_Some _ _ _ _ Hf). unfold bind at 1.
    erewrite get_frame_Some
      by (state_simpl; rewrite lookup_alter_eq, Hf; reflexivity).
    cbn [f_elm set_title]. rewrite Helm. run_simpl.
    eexists _, _. split; [reflexivity|]. state_simpl.
    rewrite lookup_alter_eq, Hf. split; [reflexivity|].
    unfold jq_dialog_option_title, each, option_title1. cbn [foldl].
    rewrite lookup_alter_eq, Hn. cbn. rewrite Hd. cbn.
    split; reflexivity.
Qed.

(** ** Closing a frame *)

Section Close.

Variable method : Hook -> ref -> State -> State * option Exn.

(** C9. [close] does not touch the registry: when the frame has no
    [destructor], or has one that leaves the registry alone, [openmdao.frames]
    is after [close] what it was before, whether [close] returns or throws;
    in particular the closed frame is still registered. *)
Theorem close_keeps_frames (this : ref) (r : Run) :
  (forall f h,
     objects (st r) !! this = Some f ->
     f_destructor f = Some h ->
     frames (method h this (st r)).1 = frames (st r)) ->
  frames (st (run_of (close method this r))) = frames (st r).
Proof.
  intros Hd. unfold close, call_destructor, get_frame, call_method.
  run_simpl.
  destruct (objects (st r) !! this) as [f|] eqn:Hf; run_simpl; [|reflexivity].
  destruct (f_destructor f) as [h|] eqn:Hh; run_simpl.
  - specialize (Hd f h eq_refl Hh).
    destruct (method h this (st r)) as [s' [e|]]; cbn [fst] in Hd;
      run_simpl; [exact Hd|].
    destruct (objects s' !! this) as [f'|]; run_simpl; [|exact Hd].
    destruct (f_par f'), (f_elm f'); run_simpl; exact Hd.
  - rewrite Hf. run_simpl.
    destruct (f_par f), (f_elm f); run_simpl; reflexivity.
Qed.

(** C10. When the frame's [destructor] throws, [close] throws the same
    exception and does nothing after it: the state is the one the
    [destructor] left, so the dialog is not destroyed, the element is neither
    moved nor removed, and the registry is not changed; a [destructor] that
    throws without changing anything leaves the state as it was before
    [close]. *)
Theorem close_destructor_throws (this : ref) (r : Run) (f : Frame) (h : Hook)
    (s' : State) (e : Exn) :
  objects (st r) !! this = Some f ->
  f_destructor f = Some h ->
  method h this (st r) = (s', Some e) ->
  close method this r =
    Throw e {| st := s'; trace := trace r ++ [EDestructor this] |} /\
  page (st (run_of (close method this r))) = page s' /\
  frames (st (run_of (close method this r))) = frames s' /\
  objects (st (run_of (close method this r))) = objects s' /\
  (s' = st r -> st (run_of (close method this r)) = st r).
Proof.
  intros Hf Hh Hm.
  assert (close method this r =
          Throw e {| st := s'; trace := trace r ++ [EDestructor this] |}) as ->.
  { unfold close, call_destructor, bind at 1 2.
    rewrite (get_frame_Some _ _ _ Hf), Hh. unfold call_method.
    run_simpl. rewrite Hm. reflexivity. }
  state_simpl. auto.
Qed.

End Close.

(** *** The element after [dialog('destroy')], [appendTo] and [remove] *)

Lemma dom_destroy1 (n : node) (d : Dom) : dom (destroy1 n d) = dom d.
Proof.
  unfold destroy1. destruct (d !! n) as [e|]; [|reflexivity].
  destruct (e_dialog e); [|reflexivity].
  rewrite dom_detach.
  destruct (body d); rewrite ?dom_append_child, ?dom_detach, dom_alter_L;
    reflexivity.
Qed.

Lemma destroy1_no_dialog (n : node) (d : Dom) (e : Elem) :
  d !! n = Some e -> e_dialog <$> destroy1 n d !! n = Some None.
Proof.
  intros Hn. unfold destroy1. rewrite Hn.
  destruct (e_dialog e) as [dl|] eqn:Hd.
  - rewrite same_dialogs_detach.
    destruct (body d);
      rewrite ?same_dialogs_append_child, ?same_dialogs_detach,
        lookup_alter_eq, Hn; reflexivity.
  - rewrite Hn. cbn. rewrite Hd. reflexivity.
Qed.

Lemma detach_not_child (n q : node) (d : Dom) (e : Elem) :
  detach n d !! q = Some e -> n ∉ e_children e.
Proof.
  rewrite lookup_detach. destruct (d !! q) as [e'|]; cbn; [|discriminate].
  intros [= <-]. cbn. rewrite list_elem_of_filter. tauto.
Qed.

Lemma descendants_child (fuel : nat) (d : Dom) (root x : node) :
  x ∈ descendants fuel d root ->
  exists q e, d !! q = Some e /\ x ∈ e_children e.
Proof.
  revert root. induction fuel as [|k IH]; intros root; cbn.
  - intros H. apply not_elem_of_nil in H. contradiction.
  - rewrite list_elem_of_In, in_flat_map.
    intros (c & Hc & Hx). apply list_elem_of_In in Hc, Hx.
    apply elem_of_cons in Hx as [->|Hx]; [|eauto].
    unfold children_of in Hc. destruct (d !! root) as [e|] eqn:He.
    + eauto.
    + apply not_elem_of_nil in Hc. contradiction.
Qed.

Lemma append_child_last (p n : node) (d : Dom) (e : Elem) :
  d !! p = Some e ->
  exists e', append_child p n d !! p = Some e' /\ last (e_children e') = Some n.
Proof.
  intros Hp. unfold append_child.
  rewrite lookup_alter_eq, lookup_detach, Hp. cbn.
  eexists; split; [reflexivity|]. cbn. apply last_snoc.
Qed.

Lemma append_child_elsewhere (p n q : node) (d : Dom) (e : Elem) :
  q ≠ p -> append_child p n d !! q = Some e -> n ∉ e_children e.
Proof.
  intros Hq. unfold append_child. rewrite lookup_alter_ne by auto.
  apply detach_not_child.
Qed.

Lemma last_elem_of {A} (l : list A) (x : A) : last l = Some x -> x ∈ l.
Proof.
  intros H. apply last_Some in H as [l' ->].
  apply elem_of_app. right. apply list_elem_of_singleton. reflexivity.
Qed.

Section Redock.

Variable method : Hook -> ref -> State -> State * option Exn.


End Redock.

(** ** The update broadcast *)

Lemma lookup_key_app (k : string) (v : ref) (pre post : list (string * ref)) :
  k ∉ map fst pre -> lookup_key k (pre ++ (k, v) :: post) = Some v.
Proof.
  induction pre as [|[k' v'] pre IH]; cbn; intros Hk.
  - rewrite String.eqb_refl. reflexivity.
  - apply not_elem_of_cons in Hk as [Hne Hk].
    destruct (String.eqb k' k) eqn:E.
    + apply String.eqb_eq in E. congruence.
    + apply IH, Hk.
Qed.

Section Broadcast.

Variable method : Hook -> ref -> State -> State * option Exn.

Hypothesis method_keeps_frames :
  forall h this s, frames (method h this s).1 = frames s.






End Broadcast.

(** ** Initialisation *)

Lemma alter_Some_insert {A} (g : A -> A) (k : nat) (m : gmap nat A) (x : A) :
  m !! k = Some x -> alter g k m = <[k := g x]> m.
Proof.
  intros H. apply map_eq. intros i. rewrite lookup_alter, lookup_insert.
  case_decide; subst; [rewrite H|]; reflexivity.
Qed.

Lemma set_frame_insert (this : ref) (g : Frame -> Frame) (f : Frame) (r : Run) :
  objects (st r) !! this = Some f ->
  set_frame this g r =
  Return tt {| st := with_objects (<[this := g f]> (objects (st r))) (st r);
               trace := trace r |}.
Proof.
  intros H. rewrite (set_frame_Some _ _ _ _ H), (alter_Some_insert _ _ _ _ H).
  reflexivity.
Qed.

(** One step of a run whose next call reads or writes a frame that is
    known. *)
Ltac frame_step :=
  first
    [ erewrite set_frame_insert
        by (state_simpl; rewrite ?lookup_insert_eq; eauto)
    | erewrite get_frame_Some
        by (state_simpl; rewrite ?lookup_insert_eq; eauto) ];
  state_simpl; rewrite ?insert_insert_eq.

Ltac frame_simpl :=
  cbn [prop_key default Datatypes.id from_option f_elm f_id f_title f_menu
       f_par
       set_elm set_menu set_title set_id set_par exists_elm] in *.

(** *** The content of the element *)












Lemma jq_id_lookup (x : string) (d : Dom) (n : node) :
  jq_id x d = [n] ->
  n ∈ all_descendants d document /\
  exists e, d !! n = Some e /\ e_id e = Some x.
Proof.
  unfold jq_id. intros H.
  destruct (head (filter (fun k => has_id d x k) (all_descendants d document)))
    as [k|] eqn:Hk; [|discriminate].
  injection H as ->. apply head_Some_elem_of in Hk.
  apply list_elem_of_filter in Hk as [Hid Hin]. split; [exact Hin|].
  unfold has_id in Hid. destruct (d !! n) as [e|]; [|contradiction].
  apply Is_true_true, bool_decide_eq_true in Hid. eauto.
Qed.



(** *** What [popup] leaves alone *)

Lemma fit_size_runs (elm : JQ) (r : Run) :
  exists r', fit_size elm r = Return tt r' /\
             trace r' = trace r /\ same_objects r r'.
Proof.
  unfold fit_size, same_objects. run_simpl.
  destruct (Qltb _ _); run_simpl; destruct (Qltb _ _); run_simpl;
    eexists; (split; [reflexivity|]); state_simpl; auto.
Qed.

Lemma popup_runs (this : ref) (title : option string) (r : Run) (f : Frame)
    (j : JQ) :
  objects (st r) !! this = Some f ->
  f_elm f = Some j ->
  exists r', popup this title r = Return tt r' /\
             trace r' = trace r ++ [EPopup this title] /\
             same_objects r r'.
Proof.
  intros Hf Helm. unfold popup, setTimeout. run_simpl.
  frame_step. rewrite Helm. run_simpl. frame_step. rewrite Helm. run_simpl.
  match goal with |- context [fit_size j ?r0] =>
    destruct (fit_size_runs j r0) as (r1 & -> & Ht & Hu & Hfs & Ho) end.
  eexists; split; [reflexivity|]. unfold same_objects. state_simpl. auto.
Qed.

(** *** What [init] does to the namespace and the frame *)

Ltac frame_step' :=
  first
    [ erewrite set_frame_insert
        by (state_simpl;
            repeat match goal with H : objects (st _) = _ |- _ => rewrite H end;
            state_simpl; rewrite ?lookup_insert_eq; eauto)
    | erewrite get_frame_Some
        by (state_simpl;
            repeat match goal with H : objects (st _) = _ |- _ => rewrite H end;
            state_simpl; rewrite ?lookup_insert_eq; eauto) ];
  state_simpl; rewrite ?insert_insert_eq.

Lemma init_runs (this : ref) (id title : option string)
    (menu : option MenuDesc) (r : Run) (f : Frame) :
  objects (st r) !! this = Some f ->
  let elm0 := if truthy id then Some (jq_id (prop_key id) (page (st r)))
              else f_elm f in
  let key := if truthy id then prop_key id
             else "BaseFrame" +:+ decimal (next_uniqueID (uniqueID (st r))) in
  exists r',
    init this id title menu r = Return tt r' /\
    trace r' = trace r ++ (if truthy id then [] else [EUniqueID key])
                       ++ (if exists_elm elm0 then [] else [EPopup this title]) /\
    uniqueID (st r') = (if truthy id then uniqueID (st r)
                        else Some (next_uniqueID (uniqueID (st r)))) /\
    frames (st r') = Some (assign key this (default [] (frames (st r)))) /\
    f_id <$> objects (st r') !! this = Some (Some key) /\
    f_par <$> objects (st r') !! this =
      Some (if exists_elm elm0
            then Some (jq_parent (default [] elm0) (page (st r)))
            else None).
Proof.
  intros Hf elm0 key. unfold init. run_simpl. frame_step.
  subst elm0 key. unfold next_uniqueID.
  destruct (truthy id) eqn:Hid;
    [|destruct (truthy_num (uniqueID (st r))) eqn:Hnum]; state_simpl.
  all: repeat frame_step.
  all: destruct (frames (st r)) as [l|] eqn:Hfr; state_simpl; frame_step.
  all: cbn [prop_key default Datatypes.id from_option f_elm f_id f_title f_menu f_par
            set_elm set_menu set_title set_id set_par] in *.
  all: rewrite ?Hnum; state_simpl.
  all: match goal with |- context [exists_elm ?x] =>
         destruct (exists_elm x) eqn:Hex end; state_simpl.
  all: repeat frame_step.
  all: try match goal with |- context [popup ?th ?t ?r0] =>
         edestruct (popup_runs th t r0) as (r1 & -> & Ht & Hu & Hfs & Ho);
           [state_simpl; apply lookup_insert_eq | reflexivity |];
           state_simpl; frame_step' end.
  all: frame_simpl.
  all: try (destruct (f_elm f) as [j|] eqn:Helm; [|discriminate Hex]).
  all: run_simpl; destruct menu; run_simpl.
  all: eexists; (split; [reflexivity|]); state_simpl.
  all: rewrite ?Ht, ?Hu, ?Hfs, ?Ho, ?lookup_insert_eq; state_simpl.
  all: rewrite ?app_nil_r, <- ?app_assoc, ?Hfr.
  all: try (destruct id as [x|]; [|discriminate Hid]).
  all: frame_simpl; auto 10.
Qed.

Lemma popup_calls_app (t1 t2 : list Event) :
  popup_calls (t1 ++ t2) = popup_calls t1 ++ popup_calls t2.
Proof. apply omap_app. Qed.

(** C2. When there is no element for the frame to bind to (no id was
    given and the frame holds no element, or the id is a plain one and no
    element of the document has it), [init] returns having called [popup]
    exactly once, with the frame's title, and records no parent. *)
Theorem init_missing_element (this : ref) (id title : option string)
    (menu : option MenuDesc) (r : Run) (f : Frame) :
  objects (st r) !! this = Some f ->
  (forall x, id = Some x -> plain_id x = true) ->
  exists_elm (if truthy id then Some (jq_id (prop_key id) (page (st r)))
              else f_elm f) = false ->
  exists r',
    init this id title menu r = Return tt r' /\
    popup_calls (trace r') = popup_calls (trace r) ++ [(this, title)] /\
    length (popup_calls (trace r')) = S (length (popup_calls (trace r))) /\
    f_par <$> objects (st r') !! this = Some None.
Proof.
  intros Hf _ Hex.
  destruct (init_runs this id title menu r f Hf)
    as (r' & Hinit & Ht & _ & _ & _ & Hpar).
  cbv zeta in Ht, Hpar. rewrite Hex in Ht, Hpar.
  assert (popup_calls (trace r') = popup_calls (trace r) ++ [(this, title)])
    as Hcalls.
  { rewrite Ht, !popup_calls_app. destruct (truthy id); cbn; reflexivity. }
  exists r'. split; [exact Hinit|]. split; [exact Hcalls|].
  split; [|exact Hpar].
  rewrite Hcalls, length_app. cbn. lia.
Qed.

(** *** Identifiers *)

Lemma keeps_ids_refl (r : Run) : keeps_ids r r.
Proof.
  split; [reflexivity|]. exists []. rewrite app_nil_r.
  split; [reflexivity|]. intros s H. apply not_elem_of_nil in H. exact H.
Qed.

Lemma keeps_ids_trans (r1 r2 r3 : Run) :
  keeps_ids r1 r2 -> keeps_ids r2 r3 -> keeps_ids r1 r3.
Proof.
  intros (Hu1 & e1 & Ht1 & Hn1) (Hu2 & e2 & Ht2 & Hn2). split; [congruence|].
  exists (e1 ++ e2). rewrite Ht2, Ht1, app_assoc. split; [reflexivity|].
  intros s Hs. apply elem_of_app in Hs as [Hs|Hs]; [eapply Hn1|eapply Hn2]; eauto.
Qed.

Lemma quiet_bind {A B} (m : M A) (k : A -> M B) :
  quiet m -> (forall a, quiet (k a)) -> quiet (bind m k).
Proof.
  intros Hm Hk r. unfold bind. specialize (Hm r).
  destruct (m r) as [a r'|e r']; cbn [run_of] in *; [|exact Hm].
  eapply keeps_ids_trans; [exact Hm | apply Hk].
Qed.

Lemma quiet_ret {A} (a : A) : quiet (ret a).
Proof. intros r. apply keeps_ids_refl. Qed.

Lemma quiet_throw {A} (e : Exn) : quiet (@throw A e).
Proof. intros r. apply keeps_ids_refl. Qed.

Lemma quiet_gets {A} (f : State -> A) : quiet (gets f).
Proof. intros r. apply keeps_ids_refl. Qed.

Lemma quiet_nonnull {A} (x : option A) : quiet (nonnull x).
Proof. destruct x; [apply quiet_ret | apply quiet_throw]. Qed.

Lemma quiet_modify (f : State -> State) :
  (forall s, uniqueID (f s) = uniqueID s) -> quiet (modify f).
Proof.
  intros Hf r. split; [apply Hf|]. exists []. cbn. rewrite app_nil_r.
  split; [reflexivity|]. intros s H. apply not_elem_of_nil in H. exact H.
Qed.

Lemma quiet_emit (ev : Event) :
  (forall s, ev ≠ EUniqueID s) -> quiet (emit ev).
Proof.
  intros Hev r. split; [reflexivity|]. exists [ev]. split; [reflexivity|].
  intros s H. apply list_elem_of_singleton in H. symmetry in H.
  exact (Hev s H).
Qed.

Lemma quiet_if {A} (b : bool) (m1 m2 : M A) :
  quiet m1 -> quiet m2 -> quiet (if b then m1 else m2).
Proof. destruct b; auto. Qed.

Ltac quiet_tac :=
  repeat first
    [ apply quiet_ret | apply quiet_throw | apply quiet_gets
    | apply quiet_nonnull
    | apply quiet_modify; intros; reflexivity
    | apply quiet_emit; intros; discriminate
    | apply quiet_bind; [|intro]
    | apply quiet_if
    | match goal with
      | |- quiet (match ?x with _ => _ end) => destruct x
      end ].

Lemma quiet_get_frame (this : ref) : quiet (get_frame this).
Proof. unfold get_frame. quiet_tac. Qed.

Lemma quiet_set_frame (this : ref) (g : Frame -> Frame) :
  quiet (set_frame this g).
Proof. unfold set_frame. quiet_tac. Qed.

Lemma quiet_modify_page (f : Dom -> Dom) : quiet (modify_page f).
Proof. unfold modify_page. quiet_tac. Qed.

Lemma quiet_fit_size (elm : JQ) : quiet (fit_size elm).
Proof. unfold fit_size. quiet_tac. Qed.

Lemma quiet_fit_in_window (dlg : JQ) : quiet (fit_in_window dlg).
Proof. unfold fit_in_window. quiet_tac. Qed.

Lemma quiet_popup (this : ref) (title : option string) :
  quiet (popup this title).
Proof.
  unfold popup, setTimeout. quiet_tac.
Qed.

Lemma quiet_setTitle (this : ref) (title : option string) :
  quiet (setTitle this title).
Proof.
  unfold setTitle. quiet_tac.
Qed.

Lemma quiet_BaseFrame : quiet (BaseFrame ;;; ret tt).
Proof. unfold BaseFrame. quiet_tac. Qed.

Lemma decimal_inj (n m : N) : decimal n = decimal m -> n = m.
Proof.
  unfold decimal. intros H.
  apply (f_equal NilEmpty.uint_of_string) in H.
  rewrite !NilEmpty.usu in H. injection H as H.
  apply (f_equal N.of_uint) in H.
  rewrite !DecimalN.Unsigned.of_to in H. exact H.
Qed.

Lemma lookup_key_assign (key : string) (v : ref) (l : list (string * ref)) :
  lookup_key key (assign key v l) = Some v.
Proof.
  induction l as [|[k x] l IH]; cbn.
  - rewrite String.eqb_refl. reflexivity.
  - destruct (String.eqb k key) eqn:E; cbn; rewrite E; auto.
Qed.

Lemma next_uniqueID_gt (u : option N) :
  (default 0 u < next_uniqueID u)%N.
Proof.
  unfold next_uniqueID, truthy_num. destruct u as [u|]; cbn; [|lia].
  destruct (N.eqb_spec u 0); cbn; lia.
Qed.

Section Identifiers.

Variable method : Hook -> ref -> State -> State * option Exn.

Hypothesis method_keeps_uniqueID :
  forall h this s, uniqueID (method h this s).1 = uniqueID s.

Lemma quiet_call_method (h : Hook) (this : ref) : quiet (call_method method h this).
Proof.
  intros r. unfold call_method.
  pose proof (method_keeps_uniqueID h this (st r)) as H.
  destruct (method h this (st r)) as [s' [e|]]; cbn in *;
    (split; [exact H|]); exists []; rewrite app_nil_r;
    (split; [reflexivity|]); intros s Hs; apply not_elem_of_nil in Hs;
    exact Hs.
Qed.

Lemma quiet_close (this : ref) : quiet (close method this).
Proof.
  unfold close, call_destructor. quiet_tac; apply quiet_call_method.
Qed.

Lemma quiet_call_update (frame : ref) : quiet (call_update method frame).
Proof.
  unfold call_update, update. quiet_tac. apply quiet_call_method.
Qed.

Lemma quiet_each_frame (keys : list string) (callback : string -> ref -> M unit) :
  (forall k frame, quiet (callback k frame)) -> quiet (each_frame keys callback).
Proof.
  intros Hcb. induction keys as [|k keys IH]; cbn [each_frame]; quiet_tac;
    auto.
Qed.

Lemma quiet_openmdao_update : quiet (openmdao_update method).
Proof.
  unfold openmdao_update. quiet_tac. apply quiet_each_frame.
  intros k frame. quiet_tac. apply quiet_call_method.
Qed.

Lemma quiet_fire (h : Handler) : quiet (fire method h).
Proof.
  destruct h; cbn [fire]; quiet_tac; apply quiet_call_method.
Qed.

Lemma init_ids_bounded (this : ref) (id title : option string)
    (menu : option MenuDesc) (r : Run) :
  ids_bounded r -> ids_bounded (run_of (init this id title menu r)).
Proof.
  intros Hb. destruct (objects (st r) !! this) as [f|] eqn:Hf.
  - destruct (init_runs this id title menu r f Hf)
      as (r' & -> & Ht & Hu & _). cbv zeta in Ht. cbn [run_of].
    intros s Hs. rewrite Ht, !elem_of_app in Hs.
    destruct (truthy id).
    + destruct Hs as [Hs|[Hs|Hs]].
      * rewrite Hu. apply Hb, Hs.
      * apply not_elem_of_nil in Hs. contradiction.
      * destruct (exists_elm _);
          [apply not_elem_of_nil in Hs
          |apply list_elem_of_singleton in Hs; discriminate]; contradiction.
    + rewrite Hu. pose proof (next_uniqueID_gt (uniqueID (st r))) as Hgt.
      destruct Hs as [Hs|[Hs|Hs]].
      * destruct (Hb s Hs) as (k & u & -> & Hu0 & Hk).
        rewrite Hu0 in Hgt |- *.
        change (u < next_uniqueID (Some u))%N in Hgt.
        exists k, (next_uniqueID (Some u)).
        split; [reflexivity|]. split; [reflexivity|]. lia.
      * apply list_elem_of_singleton in Hs. injection Hs as ->.
        eexists _, _. split; [reflexivity|]. split; [reflexivity|]. lia.
      * destruct (exists_elm _);
          [apply not_elem_of_nil in Hs
          |apply list_elem_of_singleton in Hs; discriminate]; contradiction.
  - unfold init, bind at 1, set_frame, bind at 1, get_frame. run_simpl.
    rewrite Hf. exact Hb.
Qed.

Lemma keeps_ids_bounded (r r' : Run) :
  keeps_ids r r' -> ids_bounded r -> ids_bounded r'.
Proof.
  intros (Hu & evs & Ht & Hn) Hb s Hs. rewrite Ht in Hs.
  apply elem_of_app in Hs as [Hs|Hs]; [|destruct (Hn s Hs)].
  rewrite Hu. apply Hb, Hs.
Qed.

Lemma perform_ids_bounded (a : Action) (r : Run) :
  ids_bounded r -> ids_bounded (run_of (perform method a r)).
Proof.
  destruct a; cbn [perform]; try apply init_ids_bounded;
    apply keeps_ids_bounded.
  - apply quiet_BaseFrame.
  - apply quiet_set_frame.
  - apply quiet_popup.
  - apply quiet_setTitle.
  - apply quiet_close.
  - apply quiet_openmdao_update.
  - apply quiet_fire.
  - unfold expire, run_callback. quiet_tac.
  - apply quiet_modify_page.
Qed.

Lemma run_script_ids_bounded (script : list Action) (r : Run) :
  ids_bounded r -> ids_bounded (run_script method script r).
Proof.
  revert r. induction script as [|a script IH]; intros r Hb; cbn; [exact Hb|].
  apply IH, perform_ids_bounded, Hb.
Qed.

(** C4. On a page that started without [openmdao.uniqueID], after any
    sequence of calls, [init] without an id (none, or the empty string)
    returns having advanced the counter, [uniqueID], to a larger number,
    and given the frame the identifier made from it; no earlier [init]
    generated that identifier, and [openmdao.frames] maps it to the frame. *)
Theorem init_generates_fresh_id (s0 : State) (script : list Action)
    (this : ref) (id title : option string) (menu : option MenuDesc)
    (f : Frame) :
  uniqueID s0 = None ->
  let r := run_script method script {| st := s0; trace := [] |} in
  truthy id = false ->
  objects (st r) !! this = Some f ->
  exists r' key u',
    init this id title menu r = Return tt r' /\
    uniqueID (st r') = Some u' /\
    (default 0 (uniqueID (st r)) < u')%N /\
    key = "BaseFrame" +:+ decimal u' /\
    f_id <$> objects (st r') !! this = Some (Some key) /\
    (EUniqueID key ∉ trace r) /\
    (EUniqueID key ∈ trace r') /\
    lookup_key key (default [] (frames (st r'))) = Some this.
Proof.
  intros _ r Hid Hf.
  assert (ids_bounded r) as Hb.
  { apply run_script_ids_bounded. intros s Hs. cbn in Hs.
    apply not_elem_of_nil in Hs. contradiction. }
  destruct (init_runs this id title menu r f Hf)
    as (r' & Hinit & Ht & Hu & Hfs & Hfid & _).
  cbv zeta in Ht, Hfs, Hfid. rewrite Hid in *.
  pose proof (next_uniqueID_gt (uniqueID (st r))) as Hgt.
  eexists r', _, _. split; [exact Hinit|]. split; [exact Hu|].
  split; [exact Hgt|]. split; [reflexivity|]. split; [exact Hfid|].
  split; [|split].
  - intros Hin. destruct (Hb _ Hin) as (k & u & Heq & Hu0 & Hk).
    cbn in Heq. injection Heq as Heq. apply decimal_inj in Heq.
    rewrite Hu0 in Hgt, Heq.
    change (u < next_uniqueID (Some u))%N in Hgt. lia.
  - rewrite Ht, !elem_of_app. right. left. apply list_elem_of_singleton.
    reflexivity.
  - rewrite Hfs. cbn. apply lookup_key_assign.
Qed.

End Identifiers.

(** ** The properties on the example page *)

Lemma demo_method_keeps_frames (h : Hook) (this : ref) (s : State) :
  frames (demo_method h this s).1 = frames s.
Proof. destruct h; reflexivity. Qed.

Lemma demo_method_keeps_uniqueID (h : Hook) (this : ref) (s : State) :
  uniqueID (demo_method h this s).1 = uniqueID s.
Proof. destruct h; reflexivity. Qed.

Ltac by_compute :=
  vm_compute;
  first [reflexivity | discriminate | intro; discriminate].

Lemma fit_size_clamps_witness :
  page (st demo_small) !! 2 = Some demo_pane /\
  exists r' e',
    fit_size [2] demo_small = Return tt r' /\
    page (st r') !! 2 = Some e' /\
    (height e' <= times (window_innerHeight (st demo_small)) lit_0_8)%Q /\
    (width e' <= times (window_innerWidth (st demo_small)) lit_0_8)%Q /\
    ((height demo_pane <= times (window_innerHeight (st demo_small)) lit_0_8)%Q ->
     height e' = height demo_pane) /\
    ((width demo_pane <= times (window_innerWidth (st demo_small)) lit_0_8)%Q ->
     width e' = width demo_pane) /\
    ((height demo_pane <= times (window_innerHeight (st demo_small)) lit_0_8)%Q ->
     (width demo_pane <= times (window_innerWidth (st demo_small)) lit_0_8)%Q ->
     r' = demo_small) /\
    ((0 <= window_innerHeight (st demo_small))%Q ->
     (Qabs (times (window_innerHeight (st demo_small)) lit_0_8
            - window_innerHeight (st demo_small) * 0.8)
      <= window_innerHeight (st demo_small) * (1 # 4503599627370496))%Q) /\
    ((0 <= window_innerWidth (st demo_small))%Q ->
     (Qabs (times (window_innerWidth (st demo_small)) lit_0_8
            - window_innerWidth (st demo_small) * 0.8)
      <= window_innerWidth (st demo_small) * (1 # 4503599627370496))%Q).
Proof.
  assert (page (st demo_small) !! 2 = Some demo_pane) as H by by_compute.
  split; [exact H|]. exact (fit_size_clamps demo_small 2 demo_pane H).
Defined.

(** C6 as worded fails: in a window 768 pixels high the pane, 700 pixels
    high, is clamped to 614.4000000000001 pixels (hexadecimal 266.6666666668),
    which is more than 80% of 768. *)
Lemma fit_size_exceeds_80_percent :
  fit_size [2] demo_tall = Return tt demo_tall_clamped /\
  page (st demo_tall_clamped) !! 2 = Some demo_tall_pane /\
  (height demo_tall_pane == 1351079888211149 # 2199023255552)%Q /\
  (window_innerHeight (st demo_tall) * 0.8 < height demo_tall_pane)%Q.
Proof.
  split; [by_compute|]. split; [by_compute|]. split; [by_compute|].
  by_compute.
Qed.

Lemma setTitle_updates_witness :
  setTitle 1 None demo_frames = Return tt demo_frames /\
  setTitle 1 (Some "") demo_frames = Return tt demo_frames /\
  exists r' dl',
    setTitle 1 (Some "Renamed") demo_frames = Return tt r' /\
    f_title <$> objects (st r') !! 1 = Some (Some "Renamed") /\
    e_dialog <$> page (st r') !! 2 = Some (Some dl') /\
    d_title dl' = Some "Renamed".
Proof.
  destruct (setTitle_updates 1 demo_frames) as [H1 H2].
  split; [apply H1; left; reflexivity|].
  split; [apply H1; right; reflexivity|].
  eapply (H2 "Renamed" demo_docked 2 demo_popped_pane); by_compute.
Defined.

Lemma close_keeps_frames_witness :
  (forall f h,
     objects (st demo_frames) !! 1 = Some f ->
     f_destructor f = Some h ->
     frames (demo_method h 1 (st demo_frames)).1 = frames (st demo_frames)) /\
  frames (st (run_of (close demo_method 1 demo_frames)))
  = frames (st demo_frames).
Proof.
  assert (forall f h,
     objects (st demo_frames) !! 1 = Some f ->
     f_destructor f = Some h ->
     frames (demo_method h 1 (st demo_frames)).1 = frames (st demo_frames))
    as H by (intros; apply demo_method_keeps_frames).
  split; [exact H|]. exact (close_keeps_frames demo_method 1 demo_frames H).
Defined.

Lemma close_destructor_throws_witness :
  objects (st demo_frames) !! 2 = Some demo_fragile /\
  f_destructor demo_fragile = Some 1 /\
  demo_method 1 2 (st demo_frames) = (st demo_frames, Some (UserError 1)) /\
  close demo_method 2 demo_frames =
    Throw (UserError 1)
      {| st := st demo_frames; trace := trace demo_frames ++ [EDestructor 2] |} /\
  st (run_of (close demo_method 2 demo_frames)) = st demo_frames.
Proof.
  assert (objects (st demo_frames) !! 2 = Some demo_fragile) as H1
    by by_compute.
  assert (f_destructor demo_fragile = Some 1) as H2 by reflexivity.
  assert (demo_method 1 2 (st demo_frames)
          = (st demo_frames, Some (UserError 1))) as H3 by reflexivity.
  split; [exact H1|]. split; [exact H2|]. split; [exact H3|].
  destruct (close_destructor_throws demo_method 2 demo_frames demo_fragile 1
              (st demo_frames) (UserError 1) H1 H2 H3)
    as (Hc & _ & _ & _ & Hs).
  split; [exact Hc | exact (Hs eq_refl)].
Defined.



Lemma init_missing_element_witness :
  objects (st demo_new) !! 0 = Some demo_blank /\
  (forall x, Some "nowhere" = Some x -> plain_id x = true) /\
  exists_elm (if truthy (Some "nowhere")
              then Some (jq_id (prop_key (Some "nowhere")) (page (st demo_new)))
              else f_elm demo_blank) = false /\
  exists r',
    init 0 (Some "nowhere") (Some "Popup") None demo_new = Return tt r' /\
    popup_calls (trace r')
    = popup_calls (trace demo_new) ++ [(0, Some "Popup")] /\
    length (popup_calls (trace r')) = S (length (popup_calls (trace demo_new))) /\
    f_par <$> objects (st r') !! 0 = Some None.
Proof.
  assert (objects (st demo_new) !! 0 = Some demo_blank) as H1 by by_compute.
  assert (exists_elm
            (if truthy (Some "nowhere")
             then Some (jq_id (prop_key (Some "nowhere")) (page (st demo_new)))
             else f_elm demo_blank) = false) as H2 by by_compute.
  assert (forall x, Some "nowhere" = Some x -> plain_id x = true) as Hp
    by (intros x [= <-]; reflexivity).
  split; [exact H1|]. split; [exact Hp|]. split; [exact H2|].
  exact (init_missing_element 0 (Some "nowhere") (Some "Popup") None
           demo_new demo_blank H1 Hp H2).
Defined.

(** A fourth frame, initialised without an id after the three of the
    script, becomes "BaseFrame3". *)
Lemma init_generates_fresh_id_witness :
  uniqueID demo_state = None /\
  truthy None = false /\
  objects (st (run_script demo_method (demo_script ++ [ANew])
                 {| st := demo_state; trace := [] |})) !! 3
  = Some demo_blank /\
  exists r' key u',
    init 3 None (Some "Third") None
      (run_script demo_method (demo_script ++ [ANew])
         {| st := demo_state; trace := [] |}) = Return tt r' /\
    uniqueID (st r') = Some u' /\
    (default 0 (uniqueID (st (run_script demo_method (demo_script ++ [ANew])
                                {| st := demo_state; trace := [] |}))) < u')%N /\
    key = "BaseFrame" +:+ decimal u' /\
    f_id <$> objects (st r') !! 3 = Some (Some key) /\
    (EUniqueID key ∉ trace (run_script demo_method (demo_script ++ [ANew])
                              {| st := demo_state; trace := [] |})) /\
    (EUniqueID key ∈ trace r') /\
    lookup_key key (default [] (frames (st r'))) = Some 3.
Proof.
  assert (truthy None = false) as H1 by reflexivity.
  assert (objects (st (run_script demo_method (demo_script ++ [ANew])
                         {| st := demo_state; trace := [] |})) !! 3
          = Some demo_blank) as H2 by by_compute.
  split; [reflexivity|]. split; [exact H1|]. split; [exact H2|].
  exact (init_generates_fresh_id demo_method demo_method_keeps_uniqueID
           demo_state (demo_script ++ [ANew]) 3 None (Some "Third") None
           demo_blank eq_refl H1 H2).
Defined.


(** * Further properties *)

(** ** The deferred check, all cases *)

Lemma Qeq_bool_same (x : Q) : Qeq_bool x x = true.
Proof. apply Qeq_bool_iff. reflexivity. Qed.

Lemma fit_top_stays (off_top outer inner : Q) :
  (0 <= off_top)%Q -> (off_top + outer <= inner)%Q ->
  fit_top off_top outer inner = off_top.
Proof.
  intros H0 H1. unfold fit_top.
  apply Qltb_ge in H0 as ->. apply Qltb_ge in H1 as ->. reflexivity.
Qed.

Lemma fit_top_moves_down (off_top outer inner : Q) :
  (0 <= off_top)%Q -> (inner < off_top + outer)%Q ->
  fit_top off_top outer inner = (inner - outer)%Q /\
  Qeq_bool (fit_top off_top outer inner) off_top = false.
Proof.
  intros H0 H1. unfold fit_top.
  apply Qltb_ge in H0 as H0'. rewrite H0'.
  apply Qltb_lt in H1 as H1'. rewrite H1'. split; [reflexivity|].
  destruct (Qeq_bool (inner - outer) off_top) eqn:E; [|reflexivity].
  apply Qeq_bool_iff in E. lra.
Qed.

Lemma fit_left_stays (off_left outer inner : Q) :
  (0 <= off_left)%Q -> (off_left + outer <= inner)%Q ->
  fit_left off_left outer inner = off_left.
Proof. apply fit_top_stays. Qed.

Lemma fit_left_moves_right (off_left outer inner : Q) :
  (off_left < 0)%Q -> Qeq_bool (fit_left off_left outer inner) off_left = false.
Proof. apply fit_top_moves_up. Qed.

(** When the corrected offset differs from the measured one, the pass
    hands it to the dialog. *)
Lemma fit_in_window_moves (r : Run) (n : node) (e : Elem) :
  page (st r) !! n = Some e ->
  negb (Qeq_bool (fit_top (b_top (e_box e)) (outerHeight e)
                    (window_innerHeight (st r))) (b_top (e_box e)))
  || negb (Qeq_bool (fit_left (b_left (e_box e)) (outerWidth e)
                       (window_innerWidth (st r))) (b_left (e_box e))) = true ->
  exists r' dl,
    fit_in_window [n] r = Return tt r' /\
    e_dialog <$> page (st r') !! n = Some (Some dl) /\
    d_position dl =
      Some [fit_top (b_top (e_box e)) (outerHeight e) (window_innerHeight (st r));
            fit_left (b_left (e_box e)) (outerWidth e) (window_innerWidth (st r))].
Proof.
  intros Hn Hmove. destruct r as [s t]. cbn [st] in *.
  unfold fit_in_window. repeat (run_simpl; rewrite ?jq_get_one, ?Hn).
  rewrite Hmove. state_simpl.
  match goal with |- context [jq_dialog ?o [n] (page s)] =>
    destruct (dialog1_position o _ n (page s) e Hn eq_refl)
      as (dl & Hdl & Hpos) end.
  eexists _, dl. split; [reflexivity|]. state_simpl.
  split; [rewrite same_dialogs_resize_contents; exact Hdl | exact Hpos].
Qed.

(** X1. A dialog that lies inside the window is left where it is: the
    deferred check returns without a call to the dialog, so that no dialog
    option changes; only [resize_contents] runs. *)
Theorem fit_in_window_inside_untouched (r : Run) (n : node) (e : Elem) :
  page (st r) !! n = Some e ->
  (0 <= b_top (e_box e))%Q ->
  (b_top (e_box e) + outerHeight e <= window_innerHeight (st r))%Q ->
  (0 <= b_left (e_box e))%Q ->
  (b_left (e_box e) + outerWidth e <= window_innerWidth (st r))%Q ->
  fit_in_window [n] r =
    Return tt {| st := with_page (resize_contents [n] (page (st r))) (st r);
                 trace := trace r |} /\
  same_dialogs (page (st r)) (resize_contents [n] (page (st r))).
Proof.
  intros Hn Ht0 Ht1 Hl0 Hl1. split; [|apply same_dialogs_resize_contents].
  destruct r as [s t]. cbn [st] in *.
  unfold fit_in_window. repeat (run_simpl; rewrite ?jq_get_one, ?Hn).
  rewrite (fit_top_stays _ _ _ Ht0 Ht1), (fit_left_stays _ _ _ Hl0 Hl1).
  rewrite !Qeq_bool_same. reflexivity.
Qed.


(** X3. For a dialog taller than the window that starts at or below the
    top of the window, the top that the check computes is
    [innerHeight - outerHeight], a negative number: the rectangle it asks for
    ends at the bottom of the window and starts above it.  Likewise for a
    dialog wider than the window. *)
Theorem fit_position_oversized (off_top off_left outerH outerW innerH innerW : Q) :
  ((innerH < outerH)%Q -> (0 <= off_top)%Q ->
   fit_top off_top outerH innerH = (innerH - outerH)%Q /\
   (fit_top off_top outerH innerH < 0)%Q) /\
  ((innerW < outerW)%Q -> (0 <= off_left)%Q ->
   fit_left off_left outerW innerW = (innerW - outerW)%Q /\
   (fit_left off_left outerW innerW < 0)%Q).
Proof.
  assert (forall off outer inner : Q,
            (inner < outer)%Q -> (0 <= off)%Q ->
            fit_top off outer inner = (inner - outer)%Q /\
            (fit_top off outer inner < 0)%Q) as H.
  { intros off outer inner Hbig H0.
    destruct (fit_top_moves_down off outer inner H0) as [-> _]; [lra|].
    split; [reflexivity|lra]. }
  split; intros; [apply H | apply (H off_left outerW innerW)]; assumption.
Qed.

(** X4. For a dialog that fits the window the corrected offset is a fixed
    point of the correction, on both axes: checking again would move
    nothing. *)
Theorem fit_position_stable (off_top off_left outerH outerW innerH innerW : Q) :
  (outerH <= innerH)%Q ->
  (outerW <= innerW)%Q ->
  fit_top (fit_top off_top outerH innerH) outerH innerH
  = fit_top off_top outerH innerH /\
  fit_left (fit_left off_left outerW innerW) outerW innerW
  = fit_left off_left outerW innerW.
Proof.
  intros Hh Hw. split.
  - destruct (fit_top_inside off_top _ _ Hh). apply fit_top_stays; assumption.
  - destruct (fit_left_inside off_left _ _ Hw).
    apply fit_left_stays; assumption.
Qed.

(** ** What is kept of the elements *)

Lemma keeps_refl {A} (f : Elem -> A) (d : Dom) : keeps f d d.
Proof. intros n. reflexivity. Qed.

Lemma keeps_trans {A} (f : Elem -> A) (d1 d2 d3 : Dom) :
  keeps f d1 d2 -> keeps f d2 d3 -> keeps f d1 d3.
Proof. intros H12 H23 n. rewrite H23. apply H12. Qed.

Lemma keeps_alter {A} (f : Elem -> A) (g : Elem -> Elem) (n : node) (d : Dom) :
  (forall e, f (g e) = f e) -> keeps f d (alter g n d).
Proof.
  intros Hg k. rewrite lookup_alter. case_decide; subst; [|reflexivity].
  destruct (d !! k) as [e|]; cbn; [f_equal; apply Hg | reflexivity].
Qed.

Lemma keeps_each {A} (f : Elem -> A) (g : node -> Dom -> Dom) (j : JQ) :
  (forall n d, keeps f d (g n d)) -> forall d, keeps f d (each g j d).
Proof.
  intros Hg. induction j as [|n j IH]; intros d; cbn.
  - apply keeps_refl.
  - eapply keeps_trans; [apply (Hg n) | apply IH].
Qed.

Lemma keeps_jq_set {A} (f : Elem -> A) (g : Elem -> Elem) (j : JQ) (d : Dom) :
  (forall e, f (g e) = f e) -> keeps f d (jq_set g j d).
Proof.
  intros Hg. apply keeps_each. intros n d'. apply keeps_alter, Hg.
Qed.

Lemma keeps_detach {A} (f : Elem -> A) (x : node) (d : Dom) :
  (forall cs e, f (set_children cs e) = f e) -> keeps f d (detach x d).
Proof.
  intros Hf n. rewrite lookup_detach.
  destruct (d !! n); cbn; [f_equal; apply Hf | reflexivity].
Qed.

Lemma keeps_append_child {A} (f : Elem -> A) (p c : node) (d : Dom) :
  (forall cs e, f (set_children cs e) = f e) -> keeps f d (append_child p c d).
Proof.
  intros Hf. unfold append_child.
  eapply keeps_trans; [apply keeps_detach, Hf|].
  apply keeps_alter. intros e. apply Hf.
Qed.

Lemma keeps_dom {A} (f : Elem -> A) (d d' : Dom) : keeps f d d' -> dom d' = dom d.
Proof.
  intros H. apply set_eq. intros n. rewrite !elem_of_dom.
  specialize (H n). destruct (d !! n), (d' !! n); cbn in H;
    try discriminate; split; intros [? ?]; try discriminate; eauto.
Qed.

Ltac keeps_step :=
  first
    [ apply keeps_refl
    | eapply keeps_trans; [|apply keeps_jq_set; intros; reflexivity] ].

Lemma keeps_resize_grid (panel grid : node) (d : Dom) :
  keeps but_geometry d (resize_grid panel grid d).
Proof.
  unfold resize_grid. cbv zeta.
  match goal with |- context [match ?x with _ => _ end] => destruct x end;
    repeat keeps_step.
Qed.

Lemma keeps_resize_panel (h : Q) (w : option Q) (panel : node) (d : Dom) :
  keeps but_geometry d (resize_panel h w panel d).
Proof.
  unfold resize_panel. cbv zeta.
  eapply keeps_trans;
    [|apply keeps_each; intros; apply keeps_resize_grid].
  destruct w; repeat keeps_step.
Qed.

(** ** Resizing the contents *)

(** X5. [resize_contents] changes geometry only: the page has the same
    elements afterwards, and each has the tag, id, classes, attributes,
    text, children, visibility, dialog and handlers it had; only heights,
    widths and the overflow style can differ. *)
Theorem resize_contents_geometry_only (dlg : JQ) (d : Dom) :
  dom (resize_contents dlg d) = dom d /\
  forall n e e',
    d !! n = Some e ->
    resize_contents dlg d !! n = Some e' ->
    e_tag e' = e_tag e /\ e_id e' = e_id e /\ e_class e' = e_class e /\
    e_attrs e' = e_attrs e /\ e_text e' = e_text e /\
    e_children e' = e_children e /\ e_shown e' = e_shown e /\
    e_dialog e' = e_dialog e /\ e_handlers e' = e_handlers e.
Proof.
  assert (keeps but_geometry d (resize_contents dlg d)) as H.
  { unfold resize_contents. apply keeps_each. intros.
    apply keeps_resize_panel. }
  split; [apply (keeps_dom _ _ _ H)|].
  intros n e e' He He'. specialize (H n). rewrite He, He' in H.
  cbn in H. unfold but_geometry in H. injection H as -> -> -> -> -> -> -> -> ->.
  auto 10.
Qed.

Lemma each_cons (f : node -> Dom -> Dom) (n : node) (j : JQ) (d : Dom) :
  each f (n :: j) d = each f j (f n d).
Proof. reflexivity. Qed.














(** ** Frames that have no element yet *)

(** X7. [popup] on a frame whose [elm] is still [null] (constructed, not
    initialised) fails with a [TypeError] at [dlg.dialog]; the state is
    untouched. *)
Theorem popup_without_element (this : ref) (title : option string) (r : Run)
    (f : Frame) :
  objects (st r) !! this = Some f ->
  f_elm f = None ->
  popup this title r =
    Throw TypeError {| st := st r; trace := trace r ++ [EPopup this title] |}.
Proof.
  intros Hf Helm. unfold popup. run_simpl. frame_step. rewrite Helm.
  reflexivity.
Qed.

(** X8. [setTitle] with a non-empty title on a frame whose [elm] is still
    [null] stores the title and then fails with a [TypeError]: the call
    throws, yet [this.title] has changed; nothing else has. *)
Theorem setTitle_without_element (this : ref) (x : string) (r : Run)
    (f : Frame) :
  x ≠ "" ->
  objects (st r) !! this = Some f ->
  f_elm f = None ->
  setTitle this (Some x) r =
    Throw TypeError
      {| st := with_objects (<[this := set_title (Some x) f]> (objects (st r)))
                 (st r);
         trace := trace r |}.
Proof.
  intros Hx Hf Helm. unfold setTitle. rewrite (truthy_Some x Hx). run_simpl.
  do 2 frame_step. cbn [f_elm set_title]. rewrite Helm. reflexivity.
Qed.

Section CloseMore.

Variable method : Hook -> ref -> State -> State * option Exn.

(** X9. [close] on a frame whose [elm] is [null] fails with a [TypeError]
    only after the [destructor], if any, has run and returned: what the
    [destructor] did stays done, and nothing else has changed. *)
Theorem close_without_element (this : ref) (r r1 : Run) (f : Frame) :
  call_destructor method this r = Return tt r1 ->
  objects (st r1) !! this = Some f ->
  f_elm f = None ->
  close method this r = Throw TypeError r1.
Proof.
  intros Hdes Hf Helm. unfold close, bind at 1. rewrite Hdes.
  unfold bind at 1. rewrite (get_frame_Some _ _ _ Hf), Helm.
  destruct (f_par f); reflexivity.
Qed.

(** X10. What [close] itself changes is the page: once the [destructor],
    if any, has returned, the frame objects, the counter, the registry, the
    pending timers and the trace are what the [destructor] left, whether
    [close] then returns or throws.  In particular the bounds check that
    [popup] scheduled stays scheduled, and the frame keeps its [elm] and
    [par]. *)
Theorem close_changes_page_only (this : ref) (r r1 : Run) :
  call_destructor method this r = Return tt r1 ->
  objects (st (run_of (close method this r))) = objects (st r1) /\
  timers (st (run_of (close method this r))) = timers (st r1) /\
  uniqueID (st (run_of (close method this r))) = uniqueID (st r1) /\
  frames (st (run_of (close method this r))) = frames (st r1) /\
  window_innerHeight (st (run_of (close method this r)))
  = window_innerHeight (st r1) /\
  window_innerWidth (st (run_of (close method this r)))
  = window_innerWidth (st r1) /\
  trace (run_of (close method this r)) = trace r1.
Proof.
  intros Hdes. unfold close, get_frame. run_simpl. rewrite Hdes.
  destruct (objects (st r1) !! this) as [f|]; run_simpl;
    [|repeat split; reflexivity].
  destruct (f_par f), (f_elm f); run_simpl; repeat split; reflexivity.
Qed.

End CloseMore.

(** ** What [popup] sets up *)

Lemma lookup_insert_fresh {A} (f : Elem -> A) (d : Dom) (n : node) (x e : Elem) :
  d !! n = Some e -> f <$> <[fresh_node d := x]> d !! n = f <$> d !! n.
Proof.
  intros Hn. rewrite lookup_insert_ne by (eapply fresh_node_ne; eauto).
  reflexivity.
Qed.

(** [n.dialog(o)] without a position: the element gets the widget, with
    the options [o] over those it had (or over the defaults), and is
    otherwise as before except for its place in the tree and for being
    shown. *)
Lemma dialog1_widget (o : DialogOptions) (n : node) (d : Dom) (e : Elem) :
  d !! n = Some e ->
  o_position o = None ->
  exists e',
    dialog1 o n d !! n = Some e' /\
    e_dialog e' =
      Some (apply_options o
              (default (dialog_defaults (fresh_node d)) (e_dialog e))) /\
    e_handlers e' = e_handlers e /\ e_box e' = e_box e /\
    e_id e' = e_id e /\ e_tag e' = e_tag e /\ e_class e' = e_class e.
Proof.
  intros Hn Hp. unfold dialog1. rewrite Hn, Hp. unfold place.
  destruct (e_dialog e) as [dl|] eqn:Hd.
  - rewrite lookup_alter_eq, Hn. cbn. eexists. split; [reflexivity|].
    cbn. auto 10.
  - rewrite lookup_alter_eq.
    set (w := fresh_node d).
    set (d1 := <[w := set_class ["ui-dialog"] (new_elem "div" None [] "")]> d).
    set (d2 := match body d with Some b => append_child b w d1 | None => d1 end).
    pose (proj := fun e : Elem =>
                    (e_handlers e, e_box e, e_id e, e_tag e, e_class e)).
    assert (proj <$> append_child w n d2 !! n = Some (proj e)) as H.
    { rewrite (keeps_append_child proj) by reflexivity.
      subst d2. destruct (body d);
        rewrite ?(keeps_append_child proj) by reflexivity;
        subst d1 w; rewrite (lookup_insert_fresh proj _ _ _ _ Hn), Hn;
        reflexivity. }
    destruct (append_child w n d2 !! n) as [e2|]; [|discriminate].
    cbn in H. injection H as H1 H2 H3 H4 H5.
    cbn. eexists. split; [reflexivity|]. cbn. auto 10.
Qed.

Lemma fit_size_keeps {A} (f : Elem -> A) (elm : JQ) (r : Run) :
  (forall b e, f (set_box b e) = f e) ->
  exists r',
    fit_size elm r = Return tt r' /\
    trace r' = trace r /\ same_objects r r' /\
    timers (st r') = timers (st r) /\
    keeps f (page (st r)) (page (st r')).
Proof.
  intros Hf. unfold fit_size, same_objects. run_simpl.
  destruct (Qltb _ _); run_simpl; destruct (Qltb _ _); run_simpl;
    eexists; (split; [reflexivity|]); state_simpl;
    (split; [reflexivity|]); (split; [auto|]); (split; [reflexivity|]);
    repeat first
      [ apply keeps_refl
      | eapply keeps_trans; [|apply keeps_jq_set; intros; apply Hf] ].
Qed.

Lemma popup_effect (this : ref) (title : option string) (r : Run)
    (f : Frame) (n : node) (e : Elem) :
  objects (st r) !! this = Some f ->
  f_elm f = Some [n] ->
  page (st r) !! n = Some e ->
  exists r' e' dl,
    popup this title r = Return tt r' /\
    page (st r') !! n = Some e' /\
    e_dialog e' = Some dl /\
    dl = apply_options
           {| o_modal := Some false; o_title := Some title;
              o_close := Some (HDialogClose this);
              o_height := Some Auto; o_width := Some Auto;
              o_position := None |}
           (default (dialog_defaults (fresh_node (page (st r)))) (e_dialog e)) /\
    e_handlers e' =
      e_handlers e ++ [("dialogresizestop", HResizeContents [n])] /\
    e_id e' = e_id e /\ e_tag e' = e_tag e /\
    timers (st r') = timers (st r) ++ [(FitInWindow [n], 120)] /\
    trace r' = trace r ++ [EPopup this title] /\
    same_objects r r'.
Proof.
  intros Hf Helm Hn. unfold popup, setTimeout. run_simpl.
  frame_step. rewrite Helm. run_simpl. frame_step. rewrite Helm. run_simpl.
  pose (proj := fun e : Elem => (e_dialog e, e_handlers e, e_id e, e_tag e)).
  match goal with |- context [fit_size [n] ?r0] =>
    destruct (fit_size_keeps proj [n] r0)
      as (r1 & -> & Ht & (Hu & Hfs & Ho) & Htm & Hk); [reflexivity|] end.
  state_simpl.
  match goal with H : keeps proj (jq_bind _ _ _ (jq_dialog ?o [n] _)) _ |- _ =>
    destruct (dialog1_widget o n (page (st r)) e Hn eq_refl)
      as (e1 & H1 & Hd1 & Hh1 & _ & Hi1 & Ht1 & _) end.
  specialize (Hk n). unfold jq_bind, jq_dialog in Hk.
  rewrite jq_set_one, lookup_alter_eq in Hk.
  change (each ?g [n] ?d) with (g n d) in Hk. rewrite H1 in Hk.
  destruct (page (st r1) !! n) as [e'|] eqn:He'; [|discriminate].
  cbn in Hk. injection Hk as Hk1 Hk2 Hk3 Hk4.
  eexists _, e', _. split; [reflexivity|]. state_simpl.
  split; [exact He'|]. split; [rewrite Hk1; exact Hd1|].
  split; [reflexivity|].
  unfold same_objects. state_simpl. rewrite Hk2, Hk3, Hk4, Hh1, Hi1, Ht1, Htm, Ht.
  auto 15.
Qed.

(** X11. [popup] on a frame bound to an element of the page returns and
    leaves that element a non-modal, auto-sized dialog whose close handler
    closes this frame; its title is the argument of [popup] when that is a
    non-empty string, and also, whatever the argument ([undefined]
    included), when the element was a dialog before, with whatever title
    (when the widget is created without a title the toolkit falls back on
    the element's [title] attribute, which is not represented); it adds one
    [dialogresizestop] handler after those the element had and one bounds
    check, 120 ms, after the pending timers; it changes neither the frame
    objects, nor the registry, nor the counter. *)
Theorem popup_sets_up_dialog (this : ref) (title : option string) (r : Run)
    (f : Frame) (n : node) (e : Elem) :
  objects (st r) !! this = Some f ->
  f_elm f = Some [n] ->
  page (st r) !! n = Some e ->
  exists r' e' dl,
    popup this title r = Return tt r' /\
    page (st r') !! n = Some e' /\
    e_dialog e' = Some dl /\
    d_modal dl = false /\
    d_close dl = Some (HDialogClose this) /\
    d_height dl = Auto /\ d_width dl = Auto /\
    (e_dialog e <> None \/ truthy title = true -> d_title dl = title) /\
    e_handlers e' =
      e_handlers e ++ [("dialogresizestop", HResizeContents [n])] /\
    timers (st r') = timers (st r) ++ [(FitInWindow [n], 120)] /\
    trace r' = trace r ++ [EPopup this title] /\
    same_objects r r'.
Proof.
  intros Hf Helm Hn.
  destruct (popup_effect this title r f n e Hf Helm Hn)
    as (r' & e' & dl & Hrun & He' & Hd & -> & Hh & _ & _ & Htm & Ht & Hso).
  eexists r', e', _. split; [exact Hrun|]. split; [exact He'|].
  split; [exact Hd|].
  destruct (e_dialog e) as [dl0|]; cbn; destruct title; cbn; auto 15.
Qed.

(** ** The registry over time *)

Lemma assign_keys (key : string) (v : ref) (l : list (string * ref)) :
  map fst (assign key v l) =
  if decide (key ∈ map fst l) then map fst l else map fst l ++ [key].
Proof.
  induction l as [|[k x] l IH]; cbn.
  - case_decide as H; [apply not_elem_of_nil in H; contradiction|reflexivity].
  - destruct (String.eqb_spec k key) as [->|Hne]; cbn.
    + rewrite decide_True by apply list_elem_of_here. reflexivity.
    + rewrite IH. destruct (decide (key ∈ map fst l)) as [Hin|Hout].
      * rewrite decide_True by (apply list_elem_of_further, Hin). reflexivity.
      * rewrite decide_False; [reflexivity|].
        intros Hin. apply elem_of_cons in Hin as [Heq|Hin]; congruence.
Qed.

Lemma lookup_key_assign_ne (key k : string) (v : ref) (l : list (string * ref)) :
  k ≠ key -> lookup_key k (assign key v l) = lookup_key k l.
Proof.
  intros Hne. induction l as [|[k' x] l IH]; cbn.
  - destruct (String.eqb_spec key k); [congruence|reflexivity].
  - destruct (String.eqb_spec k' key) as [->|Hk]; cbn.
    + destruct (String.eqb_spec key k); [congruence|reflexivity].
    + rewrite IH. reflexivity.
Qed.

Lemma calm_bind {A B} (m : M A) (k : A -> M B) :
  calm m -> (forall a, calm (k a)) -> calm (bind m k).
Proof.
  intros Hm Hk r. unfold bind. specialize (Hm r).
  destruct (m r) as [a r'|e r']; cbn [run_of] in *; [|exact Hm].
  rewrite Hk. exact Hm.
Qed.

Lemma calm_ret {A} (a : A) : calm (ret a).
Proof. intros r. reflexivity. Qed.

Lemma calm_throw {A} (e : Exn) : calm (@throw A e).
Proof. intros r. reflexivity. Qed.

Lemma calm_gets {A} (f : State -> A) : calm (gets f).
Proof. intros r. reflexivity. Qed.

Lemma calm_nonnull {A} (x : option A) : calm (nonnull x).
Proof. destruct x; [apply calm_ret | apply calm_throw]. Qed.

Lemma calm_modify (f : State -> State) :
  (forall s, frames (f s) = frames s) -> calm (modify f).
Proof. intros Hf r. apply Hf. Qed.

Lemma calm_emit (ev : Event) : calm (emit ev).
Proof. intros r. reflexivity. Qed.

Lemma calm_if {A} (b : bool) (m1 m2 : M A) :
  calm m1 -> calm m2 -> calm (if b then m1 else m2).
Proof. destruct b; auto. Qed.

Ltac calm_tac :=
  repeat first
    [ apply calm_ret | apply calm_throw | apply calm_gets
    | apply calm_nonnull
    | apply calm_emit
    | apply calm_modify; intros; reflexivity
    | apply calm_bind; [|intro]
    | apply calm_if
    | match goal with
      | |- calm (match ?x with _ => _ end) => destruct x
      end ].

Lemma calm_BaseFrame : calm (BaseFrame ;;; ret tt).
Proof. unfold BaseFrame. calm_tac. Qed.

Lemma calm_set_frame (this : ref) (g : Frame -> Frame) : calm (set_frame this g).
Proof. unfold set_frame. calm_tac. Qed.

Lemma calm_popup (this : ref) (title : option string) : calm (popup this title).
Proof. unfold popup, setTimeout, fit_size. calm_tac. Qed.

Lemma calm_setTitle (this : ref) (title : option string) :
  calm (setTitle this title).
Proof. unfold setTitle. calm_tac. Qed.

Lemma calm_expire (i : nat) : calm (expire i).
Proof. unfold expire, run_callback, fit_in_window. calm_tac. Qed.

Section Registry.

Variable method : Hook -> ref -> State -> State * option Exn.

Hypothesis method_keeps_frames :
  forall h this s, frames (method h this s).1 = frames s.

Lemma calm_call_method (h : Hook) (this : ref) : calm (call_method method h this).
Proof.
  intros r. unfold call_method.
  pose proof (method_keeps_frames h this (st r)) as H.
  destruct (method h this (st r)) as [s' [e|]]; exact H.
Qed.

Lemma calm_close (this : ref) : calm (close method this).
Proof. unfold close, call_destructor. calm_tac; apply calm_call_method. Qed.

Lemma calm_each_frame (keys : list string) (callback : string -> ref -> M unit) :
  (forall k frame, calm (callback k frame)) -> calm (each_frame keys callback).
Proof.
  intros Hcb. induction keys as [|k keys IH]; cbn [each_frame]; calm_tac; auto.
Qed.

Lemma calm_openmdao_update : calm (openmdao_update method).
Proof.
  unfold openmdao_update. calm_tac. apply calm_each_frame.
  intros k frame. unfold call_update, update. calm_tac. apply calm_call_method.
Qed.

Lemma calm_fire (h : Handler) : calm (fire method h).
Proof.
  destruct h; cbn [fire]; unfold close, call_destructor, popup, setTimeout,
    fit_size; calm_tac; apply calm_call_method.
Qed.

(** One call either keeps the names of the registry or adds one at the
    end. *)
Lemma perform_registry_keys (a : Action) (r : Run) :
  registry_keys (run_of (perform method a r)) = registry_keys r \/
  exists k, (k ∉ registry_keys r) /\
            registry_keys (run_of (perform method a r)) = registry_keys r ++ [k].
Proof.
  unfold registry_keys.
  destruct a; cbn [perform];
    try (left; f_equal; f_equal;
         first [apply calm_BaseFrame | apply calm_set_frame | apply calm_popup
               | apply calm_setTitle | apply calm_close
               | apply calm_openmdao_update | apply calm_fire
               | apply calm_expire | reflexivity]).
  destruct (objects (st r) !! this) as [f|] eqn:Hf.
  - destruct (init_runs this id title menu r f Hf)
      as (r' & -> & _ & _ & Hfs & _). cbv zeta in Hfs. cbn [run_of].
    rewrite Hfs. cbn [default from_option Datatypes.id]. rewrite assign_keys.
    case_decide; [left; reflexivity|right; eauto].
  - left. unfold init, bind at 1, set_frame, bind at 1, get_frame. run_simpl.
    rewrite Hf. reflexivity.
Qed.

(** In the list that models the registry, new names come after the old
    ones. *)
Lemma registry_keys_prefix (script : list Action) (r : Run) :
  registry_keys r `prefix_of` registry_keys (run_script method script r).
Proof.
  revert r. induction script as [|a script IH]; intros r; cbn; [reflexivity|].
  etransitivity; [|apply IH].
  destruct (perform_registry_keys a r) as [->|(k & Hk & ->)];
    [reflexivity|apply prefix_app_r; reflexivity].
Qed.

(** X13. No call takes a frame out of the registry: a name that is
    registered is still registered after any sequence of calls, [close]
    included (with overridden methods that leave the registry alone). *)
Theorem registry_keys_grow (script : list Action) (r : Run) (k : string) :
  k ∈ registry_keys r ->
  k ∈ registry_keys (run_script method script r).
Proof.
  intros Hk. destruct (registry_keys_prefix script r) as [l ->].
  apply elem_of_app. left. exact Hk.
Qed.

End Registry.

(** X14. After [init], with a plain id or without an id, the registry
    maps the frame's id to the frame, and every other name to the frame it
    named before: registering replaces at most the entry of that name. *)
Theorem init_registers (this : ref) (id title : option string)
    (menu : option MenuDesc) (r : Run) (f : Frame) :
  objects (st r) !! this = Some f ->
  (forall x, id = Some x -> plain_id x = true) ->
  exists r' key,
    init this id title menu r = Return tt r' /\
    f_id <$> objects (st r') !! this = Some (Some key) /\
    (forall x, id = Some x -> x ≠ "" -> key = x) /\
    lookup_key key (default [] (frames (st r'))) = Some this /\
    forall k, k ≠ key ->
      lookup_key k (default [] (frames (st r')))
      = lookup_key k (default [] (frames (st r))).
Proof.
  intros Hf _.
  destruct (init_runs this id title menu r f Hf)
    as (r' & Hinit & _ & _ & Hfs & Hid & _). cbv zeta in Hfs, Hid.
  eexists r', _. split; [exact Hinit|]. split; [exact Hid|].
  rewrite Hfs. cbn [default from_option Datatypes.id].
  split; [|split].
  - intros x -> Hx. rewrite (truthy_Some x Hx). reflexivity.
  - apply lookup_key_assign.
  - intros k Hk. apply lookup_key_assign_ne, Hk.
Qed.

(** ** The identifiers over time *)

Lemma generated_app (t1 t2 : list Event) :
  generated (t1 ++ t2) = generated t1 ++ generated t2.
Proof. apply omap_app. Qed.

Lemma generated_none (evs : list Event) :
  (forall s, EUniqueID s ∉ evs) -> generated evs = [].
Proof.
  induction evs as [|ev evs IH]; intros H; [reflexivity|].
  assert (generated evs = []) as Hrest.
  { apply IH. intros s Hs. apply (H s), list_elem_of_further, Hs. }
  destruct ev; cbn; try exact Hrest.
  destruct (H id). apply list_elem_of_here.
Qed.

Lemma keeps_ids_generated (r r' : Run) :
  keeps_ids r r' ->
  uniqueID (st r') = uniqueID (st r) /\
  generated (trace r') = generated (trace r).
Proof.
  intros (Hu & evs & Ht & Hn). split; [exact Hu|].
  rewrite Ht, generated_app, (generated_none _ Hn), app_nil_r. reflexivity.
Qed.

Lemma next_uniqueID_succ (u : option N) :
  next_uniqueID u = (default 0 u + 1)%N.
Proof.
  unfold next_uniqueID, truthy_num. destruct u as [u|]; cbn; [|reflexivity].
  destruct (N.eqb_spec u 0); cbn; [subst|]; reflexivity.
Qed.

Section Numbering.

Variable method : Hook -> ref -> State -> State * option Exn.

Hypothesis method_keeps_uniqueID :
  forall h this s, uniqueID (method h this s).1 = uniqueID s.

Lemma init_numbered (this : ref) (id title : option string)
    (menu : option MenuDesc) (r : Run) :
  numbered r -> numbered (run_of (init this id title menu r)).
Proof.
  unfold numbered. intros Hn.
  destruct (objects (st r) !! this) as [f|] eqn:Hf.
  - destruct (init_runs this id title menu r f Hf)
      as (r' & -> & Ht & Hu & _). cbv zeta in Ht. cbn [run_of].
    rewrite Ht, Hu, !generated_app.
    assert (forall b : bool,
              generated (if b then [] else [EPopup this title]) = []) as ->
      by (intros []; reflexivity).
    rewrite app_nil_r. destruct (truthy id).
    + cbn [generated omap]. rewrite app_nil_r. exact Hn.
    + cbn [generated omap default from_option Datatypes.id].
      rewrite Hn, next_uniqueID_succ.
      replace (N.to_nat (default 0%N (uniqueID (st r)) + 1)%N)
        with (S (N.to_nat (default 0%N (uniqueID (st r))))) by lia.
      rewrite seq_S, map_app. cbn [map]. f_equal.
      unfold BaseFrame_id. cbn [generated omap].
      replace (N.of_nat (1 + N.to_nat (default 0%N (uniqueID (st r)))))
        with (default 0%N (uniqueID (st r)) + 1)%N by lia.
      reflexivity.
  - unfold init, bind at 1, set_frame, bind at 1, get_frame. run_simpl.
    rewrite Hf. exact Hn.
Qed.

Lemma perform_numbered (a : Action) (r : Run) :
  numbered r -> numbered (run_of (perform method a r)).
Proof.
  destruct a; cbn [perform]; try apply init_numbered;
    intros Hn; unfold numbered;
    match goal with |- context [run_of (?m r)] =>
      assert (keeps_ids r (run_of (m r))) as Hk
    end;
    try (apply keeps_ids_generated in Hk as [-> ->]; exact Hn).
  - apply quiet_BaseFrame.
  - apply quiet_set_frame.
  - apply quiet_popup.
  - apply quiet_setTitle.
  - apply quiet_close, method_keeps_uniqueID.
  - apply quiet_openmdao_update, method_keeps_uniqueID.
  - apply quiet_fire, method_keeps_uniqueID.
  - unfold expire, run_callback. quiet_tac.
  - apply quiet_modify_page.
Qed.

Lemma run_script_numbered (script : list Action) (r : Run) :
  numbered r -> numbered (run_script method script r).
Proof.
  revert r. induction script as [|a script IH]; intros r Hn; cbn; [exact Hn|].
  apply IH, perform_numbered, Hn.
Qed.

(** X15. The counter counts the identifiers: on a page that starts
    without [openmdao.uniqueID], after any sequence of calls (with overridden
    methods that leave the counter alone), the identifiers that [init] has
    generated are BaseFrame1, BaseFrame2, ... up to the value of the
    counter, in that order, one for each number. *)
Theorem generated_ids_numbered (s0 : State) (script : list Action) :
  uniqueID s0 = None ->
  let r := run_script method script {| st := s0; trace := [] |} in
  generated (trace r)
  = map BaseFrame_id (seq 1 (N.to_nat (default 0%N (uniqueID (st r))))) /\
  length (generated (trace r)) = N.to_nat (default 0%N (uniqueID (st r))).
Proof.
  intros H0 r.
  assert (numbered r) as Hn.
  { apply run_script_numbered. unfold numbered. cbn. rewrite H0. reflexivity. }
  split; [exact Hn|]. rewrite Hn, length_map, length_seq. reflexivity.
Qed.

End Numbering.

(** ** A frame created as a popup *)

Lemma extends_refl {A} (f : Elem -> A) (d : Dom) : extends f d d.
Proof. intros n e H. rewrite H. reflexivity. Qed.

Lemma extends_trans {A} (f : Elem -> A) (d1 d2 d3 : Dom) :
  extends f d1 d2 -> extends f d2 d3 -> extends f d1 d3.
Proof.
  intros H12 H23 n e H. specialize (H12 n e H).
  destruct (d2 !! n) as [e2|] eqn:H2; [|discriminate].
  cbn in H12. injection H12 as <-. apply H23, H2.
Qed.

Lemma keeps_extends {A} (f : Elem -> A) (d d' : Dom) :
  keeps f d d' -> extends f d d'.
Proof. intros H n e Hn. rewrite H, Hn. reflexivity. Qed.

Lemma extends_insert_fresh {A} (f : Elem -> A) (d : Dom) (x : Elem) :
  extends f d (<[fresh_node d := x]> d).
Proof.
  intros n e Hn. rewrite (lookup_insert_fresh f _ _ _ _ Hn), Hn. reflexivity.
Qed.

Lemma extends_add_fresh {A} (f : Elem -> A) (d : Dom) (p : node) (x : Elem) :
  (forall cs e, f (set_children cs e) = f e) ->
  extends f d (append_child p (fresh_node d) (<[fresh_node d := x]> d)).
Proof.
  intros Hf. eapply extends_trans; [apply extends_insert_fresh|].
  apply keeps_extends, keeps_append_child, Hf.
Qed.

Lemma extends_jq_append {A} (f : Elem -> A) (x : Elem) (j : JQ) (d : Dom) :
  (forall cs e, f (set_children cs e) = f e) ->
  extends f d (jq_append x j d).
Proof.
  intros Hf. unfold jq_append. revert d.
  induction j as [|n j IH]; intros d; [apply extends_refl|].
  rewrite each_cons. eapply extends_trans; [|apply IH].
  cbv zeta. apply extends_add_fresh, Hf.
Qed.

Lemma extends_Menu {A} (f : Elem -> A) (id : string) (menu : MenuDesc) (d : Dom) :
  (forall cs e, f (set_children cs e) = f e) ->
  extends f d (Menu id menu d).
Proof.
  intros Hf. unfold Menu.
  destruct (head (jq_id id d)) as [anchor|]; [|apply extends_refl].
  cbv zeta.
  assert (extends f d
            (append_child anchor (fresh_node d)
               (<[fresh_node d := new_elem "ul" None [] ""]> d))) as H
    by (apply extends_add_fresh, Hf).
  revert H. generalize (fresh_node d) as ul. intros ul.
  generalize (append_child anchor ul (<[ul := new_elem "ul" None [] ""]> d))
    as d1.
  induction menu as [|item menu IH]; intros d1 H1; cbn; [exact H1|].
  apply IH. eapply extends_trans; [exact H1|]. apply extends_add_fresh, Hf.
Qed.

(** A new element with a handler of its own. *)
Lemma extends_new_bound {A} (f : Elem -> A) (ev : string) (h : Handler)
    (x : Elem) (d : Dom) :
  extends f d (jq_bind ev h [fresh_node d] (<[fresh_node d := x]> d)).
Proof.
  intros n e Hn. unfold jq_bind. rewrite jq_set_one.
  rewrite lookup_alter_ne by (eapply fresh_node_ne; eauto).
  apply extends_insert_fresh, Hn.
Qed.

(** What [init] does to the page once the frame has its element: the
    element keeps all but its text, its children and its handlers, to which
    the [contextmenu] handler is added. *)
Lemma init_content (this : ref) (n : node) (mid : string)
    (menu : option MenuDesc) (d : Dom) (e : Elem) :
  d !! n = Some e ->
  let d2 := jq_bind "contextmenu" HReturnFalse [n] (jq_html_empty [n] d) in
  forall d3,
    d3 = match menu with
         | None => d2
         | Some m =>
             let d4 := Menu mid m
                         (jq_append (new_elem "nav2" (Some mid) [] "") [n] d2) in
             jq_appendTo [n] [fresh_node d4]
               (jq_bind "click" (HPopOut this) [fresh_node d4]
                  (<[fresh_node d4 :=
                       new_elem "div" None
                         [("title", "Pop Out");
                          ("style",
                           "position:absolute;top:5px;right:5px;z-index:1001")]
                         "*"]> d4))
         end ->
    but_tree <$> d3 !! n
    = Some (but_tree (set_handlers
                        (e_handlers e ++ [("contextmenu", HReturnFalse)]) e)).
Proof.
  intros Hn d2 d3 ->.
  assert (d2 !! n = Some (set_handlers
                            (e_handlers e ++ [("contextmenu", HReturnFalse)])
                            (set_text "" (set_children [] e)))) as H2.
  { subst d2. unfold jq_bind, jq_html_empty.
    rewrite !jq_set_one, !lookup_alter_eq, Hn. reflexivity. }
  assert (forall d', extends but_tree d2 d' ->
            but_tree <$> d' !! n
            = Some (but_tree (set_handlers
                      (e_handlers e ++ [("contextmenu", HReturnFalse)]) e)))
    as Hfin by (intros d' H; rewrite (H _ _ H2); reflexivity).
  apply Hfin. destruct menu as [m|]; [|apply extends_refl].
  cbv zeta. unfold jq_appendTo. cbn [last]. unfold each at 1. cbn [foldl].
  eapply extends_trans;
    [|apply keeps_extends, keeps_append_child; reflexivity].
  eapply extends_trans; [|apply extends_new_bound].
  eapply extends_trans; [|apply extends_Menu; reflexivity].
  apply extends_jq_append. reflexivity.
Qed.

Lemma init_synthesized (this : ref) (id title : option string)
    (menu : option MenuDesc) (r : Run) (f : Frame) :
  objects (st r) !! this = Some f ->
  exists_elm (if truthy id then Some (jq_id (prop_key id) (page (st r)))
              else f_elm f) = false ->
  let n := fresh_node (page (st r)) in
  exists r' key f' e' w,
    init this id title menu r = Return tt r' /\
    objects (st r') !! this = Some f' /\
    f_id f' = Some key /\ f_elm f' = Some [n] /\ f_par f' = None /\
    f_title f' = title /\ f_destructor f' = f_destructor f /\
    f_update f' = f_update f /\
    frames (st r') = Some (assign key this (default [] (frames (st r)))) /\
    page (st r') !! n = Some e' /\
    e_tag e' = "div" /\ e_id e' = Some key /\
    e_dialog e' =
      Some {| d_modal := false; d_title := title;
              d_close := Some (HDialogClose this);
              d_height := Auto; d_width := Auto; d_position := None;
              d_wrapper := w |} /\
    e_handlers e' = [("dialogresizestop", HResizeContents [n]);
                     ("contextmenu", HReturnFalse)] /\
    timers (st r') = timers (st r) ++ [(FitInWindow [n], 120)].
Proof.
  intros Hf Hex n. subst n. unfold init. run_simpl. frame_step.
  destruct (truthy id) eqn:Hid;
    [|destruct (truthy_num (uniqueID (st r))) eqn:Hnum]; state_simpl.
  all: repeat frame_step.
  all: destruct (frames (st r)) as [l|] eqn:Hfr; state_simpl; frame_step.
  all: cbn [prop_key default Datatypes.id from_option f_elm f_id f_title f_menu f_par
            set_elm set_menu set_title set_id set_par] in *.
  all: rewrite ?Hnum; state_simpl.
  all: rewrite Hex; state_simpl.
  all: repeat frame_step.
  all: match goal with |- context [popup ?th ?t ?r0] =>
         edestruct (popup_effect th t r0)
           as (r1 & e1 & dl & -> & He1 & Hd1 & Hdl & Hh1 & Hi1 & Ht1 & Htm
               & Htr & Hu & Hfs & Ho);
           [state_simpl; apply lookup_insert_eq | reflexivity
           |state_simpl; apply lookup_insert_eq |];
           state_simpl; frame_step' end.
  all: frame_simpl; run_simpl.
  all: destruct menu as [m|]; run_simpl.
  all: match goal with
       | |- exists _ _ _ _ _,
              Return tt {| st := with_page ?D _; trace := _ |} = _ /\ _ =>
           assert (but_tree <$> D !! fresh_node (page (st r))
                   = Some (but_tree
                             (set_handlers
                                (e_handlers e1 ++ [("contextmenu", HReturnFalse)])
                                e1))) as Hc;
           [first [ eapply (init_content this _ _ (Some m));
                    [exact He1|reflexivity]
                  | eapply (init_content this _ "" None);
                    [exact He1|reflexivity] ]
           |destruct (D !! fresh_node (page (st r))) as [e'|] eqn:He';
            [|discriminate]]
       end.
  all: cbn in Hc; unfold but_tree in Hc;
       injection Hc as Hc1 Hc2 _ _ _ _ _ Hc3 Hc4.
  all: eexists _, _, _, e', _; (split; [reflexivity|]); state_simpl.
  all: rewrite ?Ho, ?lookup_insert_eq, He', Hc1, Hc2, Hc3, Hc4, Hd1, Hdl, Hh1,
         Hi1, Ht1, Htm, ?Hfs, ?Hfr.
  all: try (destruct id as [x|]; [|discriminate Hid]).
  all: destruct title; repeat split; reflexivity.
Qed.

(** X16. When there is no element to bind to (no id and no element held,
    or a plain id that no element has), [init] makes one: a new [div] (not
    among the elements the page had) that carries the frame's id, is the
    frame's [elm], is a non-modal dialog with a close handler that closes the
    frame and with the title given to [init] when that is a non-empty
    string, has the resize and the [contextmenu] handlers and no other, and
    has one bounds check pending. *)
Theorem init_builds_popup (this : ref) (id title : option string)
    (menu : option MenuDesc) (r : Run) (f : Frame) :
  objects (st r) !! this = Some f ->
  (forall x, id = Some x -> plain_id x = true) ->
  exists_elm (if truthy id then Some (jq_id (prop_key id) (page (st r)))
              else f_elm f) = false ->
  exists r' key n e' dl,
    init this id title menu r = Return tt r' /\
    page (st r) !! n = None /\
    f_id <$> objects (st r') !! this = Some (Some key) /\
    f_elm <$> objects (st r') !! this = Some (Some [n]) /\
    page (st r') !! n = Some e' /\
    e_tag e' = "div" /\ e_id e' = Some key /\
    e_dialog e' = Some dl /\
    d_modal dl = false /\
    (truthy title = true -> d_title dl = title) /\
    d_close dl = Some (HDialogClose this) /\
    e_handlers e' = [("dialogresizestop", HResizeContents [n]);
                     ("contextmenu", HReturnFalse)] /\
    timers (st r') = timers (st r) ++ [(FitInWindow [n], 120)].
Proof.
  intros Hf _ Hex.
  destruct (init_synthesized this id title menu r f Hf Hex)
    as (r' & key & f' & e' & w & Hinit & Ho & Hid & Helm & _ & _ & _ & _ & _
        & He' & Htag & Heid & Hd & Hh & Htm).
  eexists r', key, _, e', _. split; [exact Hinit|].
  split; [apply fresh_node_lookup|]. rewrite Ho. cbn. rewrite Hid, Helm.
  split; [reflexivity|]. split; [reflexivity|]. split; [exact He'|].
  split; [exact Htag|]. split; [exact Heid|]. split; [exact Hd|].
  cbn. auto.
Qed.

Section Cycle.

Variable method : Hook -> ref -> State -> State * option Exn.

(** X17. Creating a popup frame and closing it leaves traces: after [init]
    without an element (no id, or a plain id that no element has) and
    [close] (on a frame without [destructor]) the element has no dialog and
    is in no children list, hence not in the document, but the registry
    still maps the frame's id to the frame, the frame still holds the
    element, and the bounds check scheduled for it is still pending. *)
Theorem create_close_cycle (this : ref) (id title : option string)
    (menu : option MenuDesc) (r : Run) (f : Frame) :
  objects (st r) !! this = Some f ->
  f_destructor f = None ->
  (forall x, id = Some x -> plain_id x = true) ->
  exists_elm (if truthy id then Some (jq_id (prop_key id) (page (st r)))
              else f_elm f) = false ->
  exists r1 r2 key n e2,
    init this id title menu r = Return tt r1 /\
    close method this r1 = Return tt r2 /\
    lookup_key key (default [] (frames (st r2))) = Some this /\
    f_id <$> objects (st r2) !! this = Some (Some key) /\
    f_elm <$> objects (st r2) !! this = Some (Some [n]) /\
    page (st r2) !! n = Some e2 /\
    e_dialog e2 = None /\
    (forall q eq, page (st r2) !! q = Some eq -> n ∉ e_children eq) /\
    (n ∉ all_descendants (page (st r2)) document) /\
    (FitInWindow [n], 120) ∈ timers (st r2).
Proof.
  intros Hf Hdes _ Hex.
  destruct (init_synthesized this id title menu r f Hf Hex)
    as (r1 & key & f' & e' & w & Hinit & Ho & Hid & Helm & Hpar & _ & Hd' & _
        & Hfs & He' & _ & _ & _ & _ & Htm).
  set (n := fresh_node (page (st r))) in *.
  assert (call_destructor method this r1 = Return tt r1) as Hcd.
  { unfold call_destructor, bind. rewrite (get_frame_Some _ _ _ Ho), Hd', Hdes.
    reflexivity. }
  assert (close method this r1 =
          Return tt {| st := with_page (detach n (destroy1 n (page (st r1))))
                               (with_page (destroy1 n (page (st r1))) (st r1));
                       trace := trace r1 |}) as Hclose.
  { unfold close, bind at 1. rewrite Hcd. unfold bind at 1.
    rewrite (get_frame_Some _ _ _ Ho), Hpar, Helm. reflexivity. }
  pose proof (destroy1_no_dialog n (page (st r1)) e' He') as H.
  rewrite <- (same_dialogs_detach n) in H.
  destruct (detach n (destroy1 n (page (st r1))) !! n) as [e2|] eqn:Hn2;
    [|discriminate].
  injection H as H.
  eexists r1, _, key, n, e2. split; [exact Hinit|]. split; [exact Hclose|].
  state_simpl. rewrite Hfs, Ho, Htm. state_simpl. rewrite Hid, Helm.
  split; [apply lookup_key_assign|]. split; [reflexivity|].
  split; [reflexivity|]. split; [exact Hn2|]. split; [exact H|].
  split; [|split].
  - intros q eq. apply detach_not_child.
  - intros Hin. apply descendants_child in Hin as (q & eq & Hq & Hc).
    apply detach_not_child in Hq. contradiction.
  - apply elem_of_app. right. apply list_elem_of_here.
Qed.

(** X18. The prototype's [update] does nothing: when no registered frame
    overrides [update] (and none is registered under the name [length],
    which [jQuery.each] would take for the length of an array), the
    broadcast returns, has called [update] once for each entry in order, and
    has left the state exactly as it was. *)
Theorem openmdao_update_placeholder (r : Run) (l : list (string * ref)) :
  frames (st r) = Some l ->
  NoDup (map fst l) ->
  "length" ∉ map fst l ->
  (forall k frame, (k, frame) ∈ l ->
     exists f, objects (st r) !! frame = Some f /\ f_update f = None) ->
  openmdao_update method r =
    Return tt {| st := st r; trace := trace r ++ map EUpdate (map snd l) |}.
Proof.
  intros Hfs Hnd _ Hall. unfold openmdao_update, bind at 1 2. run_simpl.
  rewrite Hfs. run_simpl.
  assert (forall pre rest t,
            l = pre ++ rest ->
            each_frame (map fst rest)
              (fun id frame => emit (EUpdate frame) ;;; call_update method frame)
              {| st := st r; trace := t |}
            = Return tt {| st := st r;
                           trace := t ++ map EUpdate (map snd rest) |}) as H.
  { intros pre rest. revert pre.
    induction rest as [|[k fr] rest IH]; intros pre t Hl.
    - cbn. rewrite app_nil_r. reflexivity.
    - cbn [map fst snd each_frame]. unfold bind at 1 2. run_simpl.
      rewrite Hfs. state_simpl. rewrite Hl, lookup_key_app.
      2:{ rewrite Hl, map_app in Hnd. apply NoDup_app in Hnd as (_ & Hnd & _).
          intros Hin. apply (Hnd k Hin). cbn. left. }
      destruct (Hall k fr) as (f & Hf & Hu).
      { rewrite Hl. apply elem_of_app. right. left. }
      unfold call_update, update, get_frame. run_simpl. rewrite Hf.
      run_simpl. rewrite Hu. run_simpl.
      rewrite (IH (pre ++ [(k, fr)])) by (rewrite <- app_assoc; exact Hl).
      rewrite <- app_assoc. reflexivity. }
  destruct r as [s t]. apply (H [] l t eq_refl).
Qed.

End Cycle.

(** ** Popping out and docking again *)

Lemma dom_place (p : option (list Q)) (w : node) (d : Dom) :
  dom (place p w d) = dom d.
Proof.
  unfold place. destruct p as [[|x [|y [|? ?]]]|]; try reflexivity.
  apply dom_alter_L.
Qed.

Lemma dom_dialog1 (o : DialogOptions) (n : node) (d : Dom) :
  dom d ⊆ dom (dialog1 o n d).
Proof.
  unfold dialog1. destruct (d !! n) as [e|]; [|reflexivity].
  destruct (e_dialog e); rewrite dom_place.
  - rewrite dom_alter_L. reflexivity.
  - rewrite dom_alter_L, dom_append_child.
    destruct (body d); rewrite ?dom_append_child, dom_insert_L; set_solver.
Qed.

Lemma dom_jq_dialog (o : DialogOptions) (j : JQ) (d : Dom) :
  dom d ⊆ dom (jq_dialog o j d).
Proof.
  unfold jq_dialog. revert d. induction j as [|n j IH]; intros d; [reflexivity|].
  rewrite each_cons. etransitivity; [apply dom_dialog1 | apply IH].
Qed.

Lemma dom_jq_set (g : Elem -> Elem) (j : JQ) (d : Dom) :
  dom (jq_set g j d) = dom d.
Proof.
  apply (keeps_dom (fun _ => tt)), keeps_jq_set. reflexivity.
Qed.

Lemma popup_dom (this : ref) (title : option string) (r r1 : Run) :
  popup this title r = Return tt r1 ->
  dom (page (st r)) ⊆ dom (page (st r1)).
Proof.
  unfold popup, setTimeout, get_frame. run_simpl.
  destruct (objects (st r) !! this) as [f|] eqn:Hf; run_simpl; [|discriminate].
  destruct (f_elm f) as [j|] eqn:Hj; run_simpl; [|discriminate].
  rewrite Hf. run_simpl. rewrite Hj. run_simpl.
  match goal with |- context [fit_size j ?r0] =>
    destruct (fit_size_keeps (fun _ => tt) j r0)
      as (r2 & -> & _ & _ & _ & Hk); [reflexivity|] end.
  intros [= <-]. state_simpl. apply keeps_dom in Hk. rewrite Hk.
  unfold jq_bind. rewrite dom_jq_set. apply dom_jq_dialog.
Qed.

Lemma keeps_destroy1 {A} (f : Elem -> A) (n : node) (d : Dom) :
  (forall cs e, f (set_children cs e) = f e) ->
  (forall b e, f (set_shown b e) = f e) ->
  (forall x e, f (set_dialog x e) = f e) ->
  keeps f d (destroy1 n d).
Proof.
  intros Hc Hs Hd. unfold destroy1.
  destruct (d !! n) as [e|]; [|apply keeps_refl].
  destruct (e_dialog e); [|apply keeps_refl].
  eapply keeps_trans; [|apply keeps_detach, Hc].
  eapply keeps_trans;
    [apply keeps_alter; intros e0; rewrite Hs, Hd; reflexivity|].
  destruct (body d); [apply keeps_append_child, Hc | apply keeps_detach, Hc].
Qed.

(** The page after [dialog('destroy')], [appendTo(par)] and [show()]. *)
Lemma redock_page (n p : node) (d : Dom) (e ep : Elem) :
  d !! n = Some e ->
  d !! p = Some ep ->
  let d' := jq_set (set_shown true) [n]
              (jq_appendTo [p] [n] (jq_dialog_destroy [n] d)) in
  exists e2 ep2,
    d' !! n = Some e2 /\
    e_dialog e2 = None /\ e_shown e2 = true /\
    e_handlers e2 = e_handlers e /\ e_id e2 = e_id e /\
    d' !! p = Some ep2 /\
    last (e_children ep2) = Some n /\
    (forall q eq, q ≠ p -> d' !! q = Some eq -> n ∉ e_children eq).
Proof.
  intros Hn Hp d'. subst d'.
  unfold jq_dialog_destroy, jq_appendTo, jq_set, each. cbn [foldl last].
  set (d1 := destroy1 n d).
  pose (proj := fun e : Elem => (e_handlers e, e_id e)).
  assert (keeps proj d d1) as Hk1 by (apply keeps_destroy1; reflexivity).
  assert (keeps proj d (append_child p n d1)) as Hk2.
  { eapply keeps_trans; [exact Hk1|]. apply keeps_append_child. reflexivity. }
  assert (exists ep1, d1 !! p = Some ep1) as (ep1 & Hp1).
  { apply elem_of_dom. subst d1. rewrite dom_destroy1.
    apply elem_of_dom. eauto. }
  destruct (append_child_last p n d1 ep1 Hp1) as (ep2 & Hp2 & Hlast).
  pose proof (destroy1_no_dialog n d e Hn) as Hd. fold d1 in Hd.
  rewrite <- (same_dialogs_append_child p n d1) in Hd.
  specialize (Hk2 n). rewrite Hn in Hk2.
  destruct (append_child p n d1 !! n) as [e2|] eqn:Hn2; [|discriminate].
  cbn in Hd, Hk2. injection Hd as Hd. injection Hk2 as Hh Hi.
  exists (set_shown true e2), (if decide (n = p) then set_shown true ep2 else ep2).
  split; [rewrite lookup_alter_eq, Hn2; reflexivity|].
  split; [exact Hd|]. split; [reflexivity|]. split; [exact Hh|].
  split; [exact Hi|]. split; [|split].
  - rewrite lookup_alter. case_decide.
    + subst. rewrite Hp2. reflexivity.
    + exact Hp2.
  - case_decide; exact Hlast.
  - intros q eq Hq. rewrite lookup_alter. case_decide.
    + subst q. rewrite Hn2. intros [= <-]. cbn.
      eapply append_child_elsewhere; eauto.
    + apply append_child_elsewhere; auto.
Qed.

Section RoundTrip.

Variable method : Hook -> ref -> State -> State * option Exn.

(** X19. Popping a docked frame out and closing it docks it again: after
    [popup] and [close] (on a frame without [destructor]) the element has no
    dialog, is shown, and is the last child of the parent that [init]
    recorded and of no other element; the frame objects are what they were.
    The resize handler that [popup] bound is still bound, so every further
    pop-out adds one more. *)
Theorem popout_close_redocks (this : ref) (title : option string) (r : Run)
    (f : Frame) (n p : node) (e ep : Elem) :
  objects (st r) !! this = Some f ->
  f_elm f = Some [n] ->
  f_par f = Some [p] ->
  f_destructor f = None ->
  page (st r) !! n = Some e ->
  page (st r) !! p = Some ep ->
  exists r1 r2 e2 ep2,
    popup this title r = Return tt r1 /\
    close method this r1 = Return tt r2 /\
    objects (st r2) = objects (st r) /\
    page (st r2) !! n = Some e2 /\
    e_dialog e2 = None /\ e_shown e2 = true /\
    e_handlers e2
    = e_handlers e ++ [("dialogresizestop", HResizeContents [n])] /\
    page (st r2) !! p = Some ep2 /\
    last (e_children ep2) = Some n /\
    (forall q eq, q ≠ p -> page (st r2) !! q = Some eq -> n ∉ e_children eq).
Proof.
  intros Hf Helm Hpar Hdes Hn Hp.
  destruct (popup_effect this title r f n e Hf Helm Hn)
    as (r1 & e1 & dl & Hpop & Hn1 & _ & _ & Hh1 & _ & _ & _ & _ & _ & _ & Ho).
  assert (exists ep1, page (st r1) !! p = Some ep1) as (ep1 & Hp1).
  { apply elem_of_dom. apply (popup_dom _ _ _ _ Hpop).
    apply elem_of_dom. eauto. }
  assert (objects (st r1) !! this = Some f) as Hf1 by (rewrite Ho; exact Hf).
  assert (call_destructor method this r1 = Return tt r1) as Hcd.
  { unfold call_destructor, bind. rewrite (get_frame_Some _ _ _ Hf1), Hdes.
    reflexivity. }
  destruct (redock_page n p (page (st r1)) e1 ep1 Hn1 Hp1)
    as (e2 & ep2 & H1 & H2 & H3 & H4 & _ & H5 & H6 & H7).
  eexists r1, _, e2, ep2. split; [exact Hpop|]. split.
  { unfold close, bind at 1. rewrite Hcd. unfold bind at 1.
    rewrite (get_frame_Some _ _ _ Hf1), Hpar, Helm. reflexivity. }
  state_simpl. rewrite H4, Hh1. auto 10.
Qed.

End RoundTrip.

(** ** The pop-out button *)

Lemma popout_button_page (this : ref) (n : node) (mid : string) (m : MenuDesc)
    (b : Elem) (d d2 : Dom) (en : Elem) :
  extends (fun _ => tt) d d2 ->
  d2 !! n = Some en ->
  e_children b = [] -> e_handlers b = [] ->
  let d4 := Menu mid m (jq_append (new_elem "nav2" (Some mid) [] "") [n] d2) in
  let btn := fresh_node d4 in
  let D := jq_appendTo [n] [btn]
             (jq_bind "click" (HPopOut this) [btn] (<[btn := b]> d4)) in
  d !! btn = None /\
  (exists e', D !! n = Some e' /\ last (e_children e') = Some btn) /\
  (exists eb, D !! btn = Some eb /\
              but_tree eb = but_tree (set_handlers [("click", HPopOut this)] b) /\
              e_text eb = e_text b).
Proof.
  intros Hd Hn Hcb Hhb d4 btn D.
  assert (extends (fun _ => tt) d2 d4) as H24.
  { subst d4. eapply extends_trans; [|apply extends_Menu; reflexivity].
    apply extends_jq_append. reflexivity. }
  assert (exists e4, d4 !! n = Some e4) as (e4 & Hn4).
  { specialize (H24 n en Hn). destruct (d4 !! n) as [e4|]; [eauto|].
    discriminate. }
  assert (btn ≠ n) as Hne by (eapply fresh_node_ne; eauto).
  split; [|split].
  - destruct (d !! btn) as [e0|] eqn:H0; [|reflexivity].
    pose proof (extends_trans _ _ _ _ Hd H24 btn e0 H0) as H.
    subst btn. rewrite fresh_node_lookup in H. discriminate.
  - subst D. unfold jq_appendTo. cbn [last]. unfold each. cbn [foldl].
    eapply append_child_last. unfold jq_bind. rewrite jq_set_one.
    rewrite lookup_alter_ne, lookup_insert_ne by auto. exact Hn4.
  - subst D. unfold jq_appendTo. cbn [last]. unfold each. cbn [foldl].
    unfold append_child. rewrite lookup_alter_ne by auto.
    rewrite lookup_detach. unfold jq_bind. rewrite jq_set_one.
    rewrite lookup_alter_eq, lookup_insert_eq. cbn.
    eexists. split; [reflexivity|]. unfold but_tree. cbn. rewrite Hhb.
    split; reflexivity.
Qed.

Section PopOut.

Variable method : Hook -> ref -> State -> State * option Exn.

(** X20. [init] with a menu and the plain id of an element of the document
    puts the pop-out button, a new [div] titled "Pop Out" showing "*", last
    among the children of the frame's element itself (not inside the menu
    bar) and binds one click handler to it; a click on it returns and calls
    [popup] once, with the frame's title. *)
Theorem init_adds_popout_button (this : ref) (x : string)
    (title : option string) (m : MenuDesc) (r : Run) (f : Frame) (n : node) :
  objects (st r) !! this = Some f ->
  x ≠ "" ->
  plain_id x = true ->
  jq_id x (page (st r)) = [n] ->
  exists r' e' btn eb r'',
    init this (Some x) title (Some m) r = Return tt r' /\
    page (st r) !! btn = None /\
    page (st r') !! n = Some e' /\
    last (e_children e') = Some btn /\
    page (st r') !! btn = Some eb /\
    e_tag eb = "div" /\ e_text eb = "*" /\
    ("title", "Pop Out") ∈ e_attrs eb /\
    e_handlers eb = [("click", HPopOut this)] /\
    fire method (HPopOut this) r' = Return tt r'' /\
    popup_calls (trace r'') = popup_calls (trace r') ++ [(this, title)].
Proof.
  intros Hf Hx _ Hid. destruct (jq_id_lookup _ _ _ Hid) as (_ & e & Hn & _).
  assert (extends (fun _ => tt) (page (st r))
            (jq_bind "contextmenu" HReturnFalse [n]
               (jq_html_empty [n] (page (st r))))) as Hext.
  { apply keeps_extends. unfold jq_bind, jq_html_empty.
    eapply keeps_trans; apply keeps_jq_set; reflexivity. }
  assert (exists en, jq_bind "contextmenu" HReturnFalse [n]
                       (jq_html_empty [n] (page (st r))) !! n = Some en)
    as (en & Hen).
  { specialize (Hext n e Hn).
    destruct (jq_bind "contextmenu" HReturnFalse [n]
                (jq_html_empty [n] (page (st r))) !! n) as [en|]; [eauto|].
    discriminate. }
  unfold init. rewrite (truthy_Some x Hx). run_simpl.
  do 2 frame_step.
  destruct (frames (st r)) as [l|] eqn:Hfr; state_simpl;
    frame_step; frame_simpl; rewrite Hid; cbn [length];
    rewrite bool_decide_eq_true_2 by lia;
    do 2 frame_step; frame_simpl; run_simpl.
  all: match goal with
       | |- exists _ _ _ _ _,
              Return tt {| st := with_page (jq_appendTo _ _
                              (jq_bind _ _ _ (<[_ := ?b]> (Menu ?mid _ _)))) ?s;
                           trace := ?t |} = _ /\ _ =>
           destruct (popout_button_page this n mid m b _ _ en Hext Hen
                       eq_refl eq_refl)
             as (Hnew & (e' & He' & Hlast) & (eb & Heb & Hbt & Htx));
           cbv zeta in Hnew, He', Hlast, Heb;
           unfold but_tree in Hbt; cbn in Hbt, Htx;
           injection Hbt as Hb1 _ _ Hb2 _ _ _ _ Hb3;
           edestruct (popup_effect this title
                        {| st := with_page (jq_appendTo [n] [fresh_node (Menu mid m
                                   (jq_append (new_elem "nav2" (Some mid) [] "") [n]
                                      (jq_bind "contextmenu" HReturnFalse [n]
                                         (jq_html_empty [n] (page (st r))))))]
                              (jq_bind "click" (HPopOut this) [fresh_node (Menu mid m
                                   (jq_append (new_elem "nav2" (Some mid) [] "") [n]
                                      (jq_bind "contextmenu" HReturnFalse [n]
                                         (jq_html_empty [n] (page (st r))))))]
                                 (<[fresh_node (Menu mid m
                                   (jq_append (new_elem "nav2" (Some mid) [] "") [n]
                                      (jq_bind "contextmenu" HReturnFalse [n]
                                         (jq_html_empty [n] (page (st r)))))) := b]>
                                    (Menu mid m
                                   (jq_append (new_elem "nav2" (Some mid) [] "") [n]
                                      (jq_bind "contextmenu" HReturnFalse [n]
                                         (jq_html_empty [n] (page (st r))))))))) s;
                           trace := t |})
             as (r'' & _ & _ & Hpop & _ & _ & _ & _ & _ & _ & _ & Htr & _);
             [state_simpl; apply lookup_insert_eq | reflexivity
             |state_simpl; exact He' |]
       end.
  all: eexists _, e', _, eb, r''; (split; [reflexivity|]); state_simpl.
  all: split; [exact Hnew|]; split; [exact He'|]; split; [exact Hlast|].
  all: split; [exact Heb|]; split; [exact Hb1|]; split; [exact Htx|].
  all: split; [rewrite Hb2; apply list_elem_of_here|]; split; [exact Hb3|].
  all: unfold fire, bind at 1; erewrite get_frame_Some
         by (state_simpl; apply lookup_insert_eq).
  all: frame_simpl; split; [exact Hpop|].
  all: rewrite Htr, popup_calls_app; reflexivity.
Qed.

End PopOut.

(** ** Where the check puts the dialog *)





(** ** The further properties on the example page *)

(** The pane at 10, 20 in a window of 600 by 800 is inside. *)
Lemma fit_in_window_inside_untouched_witness :
  page (st (demo_placed 10 20 600 800)) !! 2 = Some (demo_moved 10 20) /\
  (0 <= b_top (e_box (demo_moved 10 20)))%Q /\
  (b_top (e_box (demo_moved 10 20)) + outerHeight (demo_moved 10 20)
   <= window_innerHeight (st (demo_placed 10 20 600 800)))%Q /\
  (0 <= b_left (e_box (demo_moved 10 20)))%Q /\
  (b_left (e_box (demo_moved 10 20)) + outerWidth (demo_moved 10 20)
   <= window_innerWidth (st (demo_placed 10 20 600 800)))%Q /\
  fit_in_window [2] (demo_placed 10 20 600 800) =
    Return tt
      {| st := with_page (resize_contents [2]
                            (page (st (demo_placed 10 20 600 800))))
                 (st (demo_placed 10 20 600 800));
         trace := trace (demo_placed 10 20 600 800) |} /\
  same_dialogs (page (st (demo_placed 10 20 600 800)))
    (resize_contents [2] (page (st (demo_placed 10 20 600 800)))).
Proof.
  assert (page (st (demo_placed 10 20 600 800)) !! 2
          = Some (demo_moved 10 20)) as H1 by by_compute.
  assert (0 <= b_top (e_box (demo_moved 10 20)))%Q as H2 by by_compute.
  assert (b_top (e_box (demo_moved 10 20)) + outerHeight (demo_moved 10 20)
          <= window_innerHeight (st (demo_placed 10 20 600 800)))%Q as H3
    by by_compute.
  assert (0 <= b_left (e_box (demo_moved 10 20)))%Q as H4 by by_compute.
  assert (b_left (e_box (demo_moved 10 20)) + outerWidth (demo_moved 10 20)
          <= window_innerWidth (st (demo_placed 10 20 600 800)))%Q as H5
    by by_compute.
  split; [exact H1|]. split; [exact H2|]. split; [exact H3|].
  split; [exact H4|]. split; [exact H5|].
  exact (fit_in_window_inside_untouched (demo_placed 10 20 600 800) 2
           (demo_moved 10 20) H1 H2 H3 H4 H5).
Defined.


Lemma fit_position_oversized_witness :
  (80 < 100)%Q /\ (0 <= 10)%Q /\
  fit_top 10 100 80 = (80 - 100)%Q /\ (fit_top 10 100 80 < 0)%Q.
Proof.
  assert (80 < 100)%Q as H1 by by_compute.
  assert (0 <= 10)%Q as H2 by by_compute.
  split; [exact H1|]. split; [exact H2|].
  exact (proj1 (fit_position_oversized 10 0 100 0 80 0) H1 H2).
Defined.

Lemma fit_position_stable_witness :
  (100 <= 600)%Q /\ (200 <= 800)%Q /\
  fit_top (fit_top 550 100 600) 100 600 = fit_top 550 100 600 /\
  fit_left (fit_left (-30) 200 800) 200 800 = fit_left (-30) 200 800.
Proof.
  assert (100 <= 600)%Q as H1 by by_compute.
  assert (200 <= 800)%Q as H2 by by_compute.
  split; [exact H1|]. split; [exact H2|].
  exact (fit_position_stable 550 (-30) 100 200 600 800 H1 H2).
Defined.

Lemma resize_contents_geometry_only_witness :
  dom (resize_contents [2] demo_tabs) = dom demo_tabs /\
  forall n e e',
    demo_tabs !! n = Some e ->
    resize_contents [2] demo_tabs !! n = Some e' ->
    e_tag e' = e_tag e /\ e_id e' = e_id e /\ e_class e' = e_class e /\
    e_attrs e' = e_attrs e /\ e_text e' = e_text e /\
    e_children e' = e_children e /\ e_shown e' = e_shown e /\
    e_dialog e' = e_dialog e /\ e_handlers e' = e_handlers e.
Proof. exact (resize_contents_geometry_only [2] demo_tabs). Defined.


Lemma popup_without_element_witness :
  objects (st demo_new) !! 0 = Some demo_blank /\
  f_elm demo_blank = None /\
  popup 0 (Some "Early") demo_new =
    Throw TypeError {| st := st demo_new;
                       trace := trace demo_new ++ [EPopup 0 (Some "Early")] |}.
Proof.
  assert (objects (st demo_new) !! 0 = Some demo_blank) as H1 by by_compute.
  assert (f_elm demo_blank = None) as H2 by reflexivity.
  split; [exact H1|]. split; [exact H2|].
  exact (popup_without_element 0 (Some "Early") demo_new demo_blank H1 H2).
Defined.

Lemma setTitle_without_element_witness :
  "Early" ≠ "" /\
  objects (st demo_new) !! 0 = Some demo_blank /\
  f_elm demo_blank = None /\
  setTitle 0 (Some "Early") demo_new =
    Throw TypeError
      {| st := with_objects (<[0 := set_title (Some "Early") demo_blank]>
                               (objects (st demo_new)))
                 (st demo_new);
         trace := trace demo_new |}.
Proof.
  assert ("Early" ≠ "") as H0 by discriminate.
  assert (objects (st demo_new) !! 0 = Some demo_blank) as H1 by by_compute.
  assert (f_elm demo_blank = None) as H2 by reflexivity.
  split; [exact H0|]. split; [exact H1|]. split; [exact H2|].
  exact (setTitle_without_element 0 "Early" demo_new demo_blank H0 H1 H2).
Defined.

Lemma close_without_element_witness :
  call_destructor demo_method 0 demo_new = Return tt demo_new /\
  objects (st demo_new) !! 0 = Some demo_blank /\
  f_elm demo_blank = None /\
  close demo_method 0 demo_new = Throw TypeError demo_new.
Proof.
  assert (call_destructor demo_method 0 demo_new = Return tt demo_new) as H0
    by by_compute.
  assert (objects (st demo_new) !! 0 = Some demo_blank) as H1 by by_compute.
  assert (f_elm demo_blank = None) as H2 by reflexivity.
  split; [exact H0|]. split; [exact H1|]. split; [exact H2|].
  exact (close_without_element demo_method 0 demo_new demo_new demo_blank
           H0 H1 H2).
Defined.

Lemma close_changes_page_only_witness :
  call_destructor demo_method 1 demo_frames = Return tt demo_frames /\
  objects (st (run_of (close demo_method 1 demo_frames)))
  = objects (st demo_frames) /\
  timers (st (run_of (close demo_method 1 demo_frames)))
  = timers (st demo_frames) /\
  uniqueID (st (run_of (close demo_method 1 demo_frames)))
  = uniqueID (st demo_frames) /\
  frames (st (run_of (close demo_method 1 demo_frames)))
  = frames (st demo_frames) /\
  window_innerHeight (st (run_of (close demo_method 1 demo_frames)))
  = window_innerHeight (st demo_frames) /\
  window_innerWidth (st (run_of (close demo_method 1 demo_frames)))
  = window_innerWidth (st demo_frames) /\
  trace (run_of (close demo_method 1 demo_frames)) = trace demo_frames.
Proof.
  assert (call_destructor demo_method 1 demo_frames = Return tt demo_frames)
    as H0 by by_compute.
  split; [exact H0|].
  exact (close_changes_page_only demo_method 1 demo_frames demo_frames H0).
Defined.

(** The pane, a dialog titled "Pane", is popped out again without a
    title: the title is gone. *)
Lemma popup_sets_up_dialog_witness :
  objects (st demo_frames) !! 1 = Some demo_docked /\
  f_elm demo_docked = Some [2] /\
  page (st demo_frames) !! 2 = Some demo_popped_pane /\
  (e_dialog demo_popped_pane ≫= d_title) = Some "Pane" /\
  exists r' e' dl,
    popup 1 None demo_frames = Return tt r' /\
    page (st r') !! 2 = Some e' /\
    e_dialog e' = Some dl /\
    d_modal dl = false /\
    d_close dl = Some (HDialogClose 1) /\
    d_height dl = Auto /\ d_width dl = Auto /\
    (e_dialog demo_popped_pane <> None \/ truthy None = true ->
     d_title dl = None) /\
    e_handlers e' =
      e_handlers demo_popped_pane
      ++ [("dialogresizestop", HResizeContents [2])] /\
    timers (st r') = timers (st demo_frames) ++ [(FitInWindow [2], 120)] /\
    trace r' = trace demo_frames ++ [EPopup 1 None] /\
    same_objects demo_frames r'.
Proof.
  assert (objects (st demo_frames) !! 1 = Some demo_docked) as H1
    by by_compute.
  assert (f_elm demo_docked = Some [2]) as H2 by reflexivity.
  assert (page (st demo_frames) !! 2 = Some demo_popped_pane) as H3
    by by_compute.
  split; [exact H1|]. split; [exact H2|]. split; [exact H3|].
  split; [reflexivity|].
  exact (popup_sets_up_dialog 1 None demo_frames demo_docked 2
           demo_popped_pane H1 H2 H3).
Defined.

(** The pane stays registered when its frame is closed and a fourth frame
    is created. *)
Lemma registry_keys_grow_witness :
  ("pane" ∈ registry_keys demo_frames) /\
  ("pane" ∈ registry_keys
              (run_script demo_method
                 [AClose 1; ANew; AInit 3 None (Some "Fourth") None]
                 demo_frames)).
Proof.
  assert ("pane" ∈ registry_keys demo_frames) as H
    by (refine (bool_decide_unpack _ _); vm_compute; exact I).
  split; [exact H|].
  exact (registry_keys_grow demo_method demo_method_keeps_frames
           [AClose 1; ANew; AInit 3 None (Some "Fourth") None] demo_frames
           "pane" H).
Defined.

Lemma init_registers_witness :
  objects (st demo_new) !! 0 = Some demo_blank /\
  (forall x, Some "pane" = Some x -> plain_id x = true) /\
  exists r' key,
    init 0 (Some "pane") (Some "Pane") None demo_new = Return tt r' /\
    f_id <$> objects (st r') !! 0 = Some (Some key) /\
    (forall x, Some "pane" = Some x -> x ≠ "" -> key = x) /\
    lookup_key key (default [] (frames (st r'))) = Some 0 /\
    forall k, k ≠ key ->
      lookup_key k (default [] (frames (st r')))
      = lookup_key k (default [] (frames (st demo_new))).
Proof.
  assert (objects (st demo_new) !! 0 = Some demo_blank) as H1 by by_compute.
  assert (forall x, Some "pane" = Some x -> plain_id x = true) as Hp
    by (intros x [= <-]; reflexivity).
  split; [exact H1|]. split; [exact Hp|].
  exact (init_registers 0 (Some "pane") (Some "Pane") None demo_new
           demo_blank H1 Hp).
Defined.

(** The script generates BaseFrame1 and BaseFrame2. *)
Lemma generated_ids_numbered_witness :
  uniqueID demo_state = None /\
  let r := run_script demo_method demo_script
             {| st := demo_state; trace := [] |} in
  generated (trace r)
  = map BaseFrame_id (seq 1 (N.to_nat (default 0%N (uniqueID (st r))))) /\
  length (generated (trace r)) = N.to_nat (default 0%N (uniqueID (st r))).
Proof.
  assert (uniqueID demo_state = None) as H by reflexivity.
  split; [exact H|].
  exact (generated_ids_numbered demo_method demo_method_keeps_uniqueID
           demo_state demo_script H).
Defined.

Lemma init_builds_popup_witness :
  objects (st demo_new) !! 0 = Some demo_blank /\
  (forall x, Some "nowhere" = Some x -> plain_id x = true) /\
  exists_elm (if truthy (Some "nowhere")
              then Some (jq_id (prop_key (Some "nowhere")) (page (st demo_new)))
              else f_elm demo_blank) = false /\
  exists r' key n e' dl,
    init 0 (Some "nowhere") (Some "Popup") None demo_new = Return tt r' /\
    page (st demo_new) !! n = None /\
    f_id <$> objects (st r') !! 0 = Some (Some key) /\
    f_elm <$> objects (st r') !! 0 = Some (Some [n]) /\
    page (st r') !! n = Some e' /\
    e_tag e' = "div" /\ e_id e' = Some key /\
    e_dialog e' = Some dl /\
    d_modal dl = false /\
    (truthy (Some "Popup") = true -> d_title dl = Some "Popup") /\
    d_close dl = Some (HDialogClose 0) /\
    e_handlers e' = [("dialogresizestop", HResizeContents [n]);
                     ("contextmenu", HReturnFalse)] /\
    timers (st r') = timers (st demo_new) ++ [(FitInWindow [n], 120)].
Proof.
  assert (objects (st demo_new) !! 0 = Some demo_blank) as H1 by by_compute.
  assert (exists_elm
            (if truthy (Some "nowhere")
             then Some (jq_id (prop_key (Some "nowhere")) (page (st demo_new)))
             else f_elm demo_blank) = false) as H2 by by_compute.
  assert (forall x, Some "nowhere" = Some x -> plain_id x = true) as Hp
    by (intros x [= <-]; reflexivity).
  split; [exact H1|]. split; [exact Hp|]. split; [exact H2|].
  exact (init_builds_popup 0 (Some "nowhere") (Some "Popup") None demo_new
           demo_blank H1 Hp H2).
Defined.

Lemma create_close_cycle_witness :
  objects (st demo_new) !! 0 = Some demo_blank /\
  f_destructor demo_blank = None /\
  (forall x, Some "nowhere" = Some x -> plain_id x = true) /\
  exists_elm (if truthy (Some "nowhere")
              then Some (jq_id (prop_key (Some "nowhere")) (page (st demo_new)))
              else f_elm demo_blank) = false /\
  exists r1 r2 key n e2,
    init 0 (Some "nowhere") (Some "Popup") None demo_new = Return tt r1 /\
    close demo_method 0 r1 = Return tt r2 /\
    lookup_key key (default [] (frames (st r2))) = Some 0 /\
    f_id <$> objects (st r2) !! 0 = Some (Some key) /\
    f_elm <$> objects (st r2) !! 0 = Some (Some [n]) /\
    page (st r2) !! n = Some e2 /\
    e_dialog e2 = None /\
    (forall q eq, page (st r2) !! q = Some eq -> n ∉ e_children eq) /\
    (n ∉ all_descendants (page (st r2)) document) /\
    (FitInWindow [n], 120) ∈ timers (st r2).
Proof.
  assert (objects (st demo_new) !! 0 = Some demo_blank) as H1 by by_compute.
  assert (f_destructor demo_blank = None) as H2 by reflexivity.
  assert (forall x, Some "nowhere" = Some x -> plain_id x = true) as Hp
    by (intros x [= <-]; reflexivity).
  assert (exists_elm
            (if truthy (Some "nowhere")
             then Some (jq_id (prop_key (Some "nowhere")) (page (st demo_new)))
             else f_elm demo_blank) = false) as H3 by by_compute.
  split; [exact H1|]. split; [exact H2|]. split; [exact Hp|].
  split; [exact H3|].
  exact (create_close_cycle demo_method 0 (Some "nowhere") (Some "Popup") None
           demo_new demo_blank H1 H2 Hp H3).
Defined.

Lemma demo_plain_no_update (k : string) (frame : ref) :
  (k, frame) ∈ [("BaseFrame1", 0); ("pane", 1)] ->
  exists f, objects (st demo_plain) !! frame = Some f /\ f_update f = None.
Proof.
  intros H. apply elem_of_cons in H as [H|H].
  - injection H as _ ->. eexists. split; by_compute.
  - apply elem_of_cons in H as [H|H].
    + injection H as _ ->. eexists. split; by_compute.
    + apply elem_of_nil in H. contradiction.
Qed.

(** The broadcast over the two plain frames. *)
Lemma openmdao_update_placeholder_witness :
  frames (st demo_plain) = Some [("BaseFrame1", 0); ("pane", 1)] /\
  NoDup (map fst [("BaseFrame1", 0); ("pane", 1)]) /\
  ("length" ∉ map fst [("BaseFrame1", 0); ("pane", 1)]) /\
  openmdao_update demo_method demo_plain =
    Return tt {| st := st demo_plain;
                 trace := trace demo_plain
                          ++ map EUpdate (map snd [("BaseFrame1", 0); ("pane", 1)]) |}.
Proof.
  assert (frames (st demo_plain) = Some [("BaseFrame1", 0); ("pane", 1)])
    as H1 by by_compute.
  assert (NoDup (map fst [("BaseFrame1", 0); ("pane", 1)])) as H2
    by (refine (bool_decide_unpack _ _); vm_compute; exact I).
  assert ("length" ∉ map fst [("BaseFrame1", 0); ("pane", 1)]) as Hlen
    by (refine (bool_decide_unpack _ _); vm_compute; exact I).
  split; [exact H1|]. split; [exact H2|]. split; [exact Hlen|].
  exact (openmdao_update_placeholder demo_method demo_plain _ H1 H2 Hlen
           demo_plain_no_update).
Defined.

(** The docked pane, popped out and closed, is back under the body. *)
Lemma popout_close_redocks_witness :
  objects (st demo_plain) !! 1 = Some demo_plain_docked /\
  f_elm demo_plain_docked = Some [2] /\
  f_par demo_plain_docked = Some [1] /\
  f_destructor demo_plain_docked = None /\
  page (st demo_plain) !! 2 = Some demo_plain_pane /\
  page (st demo_plain) !! 1 = Some demo_plain_body /\
  exists r1 r2 e2 ep2,
    popup 1 (Some "Out") demo_plain = Return tt r1 /\
    close demo_method 1 r1 = Return tt r2 /\
    objects (st r2) = objects (st demo_plain) /\
    page (st r2) !! 2 = Some e2 /\
    e_dialog e2 = None /\ e_shown e2 = true /\
    e_handlers e2
    = e_handlers demo_plain_pane ++ [("dialogresizestop", HResizeContents [2])] /\
    page (st r2) !! 1 = Some ep2 /\
    last (e_children ep2) = Some 2 /\
    (forall q eq, q ≠ 1 -> page (st r2) !! q = Some eq -> 2 ∉ e_children eq).
Proof.
  assert (objects (st demo_plain) !! 1 = Some demo_plain_docked) as H1
    by by_compute.
  assert (f_elm demo_plain_docked = Some [2]) as H2 by reflexivity.
  assert (f_par demo_plain_docked = Some [1]) as H3 by reflexivity.
  assert (f_destructor demo_plain_docked = None) as H4 by reflexivity.
  assert (page (st demo_plain) !! 2 = Some demo_plain_pane) as H5
    by by_compute.
  assert (page (st demo_plain) !! 1 = Some demo_plain_body) as H6
    by by_compute.
  split; [exact H1|]. split; [exact H2|]. split; [exact H3|].
  split; [exact H4|]. split; [exact H5|]. split; [exact H6|].
  exact (popout_close_redocks demo_method 1 (Some "Out") demo_plain
           demo_plain_docked 2 1 demo_plain_pane demo_plain_body
           H1 H2 H3 H4 H5 H6).
Defined.

Lemma init_adds_popout_button_witness :
  objects (st demo_new) !! 0 = Some demo_blank /\
  "pane" ≠ "" /\
  plain_id "pane" = true /\
  jq_id "pane" (page (st demo_new)) = [2] /\
  exists r' e' btn eb r'',
    init 0 (Some "pane") (Some "Pane") (Some ["File"; "Edit"]) demo_new
    = Return tt r' /\
    page (st demo_new) !! btn = None /\
    page (st r') !! 2 = Some e' /\
    last (e_children e') = Some btn /\
    page (st r') !! btn = Some eb /\
    e_tag eb = "div" /\ e_text eb = "*" /\
    (("title", "Pop Out") ∈ e_attrs eb) /\
    e_handlers eb = [("click", HPopOut 0)] /\
    fire demo_method (HPopOut 0) r' = Return tt r'' /\
    popup_calls (trace r'') = popup_calls (trace r') ++ [(0, Some "Pane")].
Proof.
  assert (objects (st demo_new) !! 0 = Some demo_blank) as H1 by by_compute.
  assert ("pane" ≠ "") as H2 by discriminate.
  assert (plain_id "pane" = true) as Hp by reflexivity.
  assert (jq_id "pane" (page (st demo_new)) = [2]) as H3 by by_compute.
  split; [exact H1|]. split; [exact H2|]. split; [exact Hp|].
  split; [exact H3|].
  exact (init_adds_popout_button demo_method 0 "pane" (Some "Pane")
           ["File"; "Edit"] demo_new demo_blank 2 H1 H2 Hp H3).
Defined.

